(** * Hotel booking server: the booking and cancellation handlers

    A shallow embedding of [server/server.js] (Express handlers over two
    Mongoose collections) and of the requests the React front-end sends.

    - JSON request fields are [jsval]s; numbers are binary64 floats and
      strings are UTF-8 byte sequences; truthiness, [String.prototype.trim],
      [parseInt] and [Number::toString] follow ECMAScript.
    - The two collections are lists of documents in natural order;
      [findOne] and friends act on the first match.
    - A handler body is a computation in a state-and-exception monad: a
      [throw] keeps the writes already made and the surrounding
      [try]/[catch] answers 500. *)

From Stdlib Require Import ZArith Ascii String DecimalString Floats.
From Stdlib Require DecimalPos.
From stdpp Require Import base option list sorting strings.

Local Open Scope Z_scope.
Set Warnings "-inexact-float".

(** ** JavaScript values carried by a JSON body *)

(** A JavaScript number: an IEEE 754 binary64 value, with its [NaN], its
    infinities and its two zeros. *)
Definition number : Type := float.
Bind Scope float_scope with number.

(** The scalar values a field of [req.body] can hold; [JUndefined] is an
    absent field. Object- and array-valued fields are outside this model.
    A string is the sequence of bytes of its UTF-8 encoding. *)
Inductive jsval : Type :=
| JUndefined
| JNull
| JBool (b : bool)
| JNumber (n : number)
| JString (s : string).

Module JS.

Definition NaN : number := nan.

(** [ToBoolean]: what [!v] negates. The falsy numbers are [NaN], [+0] and
    [-0]. *)
Definition truthy (v : jsval) : bool :=
  match v with
  | JUndefined | JNull => false
  | JBool b => b
  | JNumber n => negb (PrimFloat.is_nan n || PrimFloat.eqb n 0)
  | JString s => negb (String.eqb s "")
  end.

(** [a * b] on numbers: the binary64 product, rounded to nearest. *)
Definition mul (a b : number) : number := PrimFloat.mul a b.

(** *** White space *)

(** The white space and line terminator code points of ECMAScript, by the
    bytes of their UTF-8 encoding. One byte: TAB, LF, VT, FF, CR and SP. *)
Definition white1 (a : ascii) : bool :=
  let a := N_of_ascii a in
  ((9 <=? a) && (a <=? 13) || (a =? 32))%N.

(** Two bytes: U+00A0, the no-break space. *)
Definition white2 (a b : ascii) : bool :=
  ((N_of_ascii a =? 0xC2) && (N_of_ascii b =? 0xA0))%N.

(** Three bytes: U+1680, U+2000 to U+200A, U+2028, U+2029, U+202F, U+205F,
    U+3000 and U+FEFF. *)
Definition white3 (a b c : ascii) : bool :=
  let a := N_of_ascii a in
  let b := N_of_ascii b in
  let c := N_of_ascii c in
  ((a =? 0xE1) && (b =? 0x9A) && (c =? 0x80)
   || (a =? 0xE2) && (b =? 0x80)
      && ((0x80 <=? c) && (c <=? 0x8A) || (c =? 0xA8) || (c =? 0xA9) || (c =? 0xAF))
   || (a =? 0xE2) && (b =? 0x81) && (c =? 0x9F)
   || (a =? 0xE3) && (b =? 0x80) && (c =? 0x80)
   || (a =? 0xEF) && (b =? 0xBB) && (c =? 0xBF))%N.

(** The string after its first character, when that character is white
    space. *)
Definition white_prefix (s : string) : option string :=
  match s with
  | EmptyString => None
  | String a r1 =>
      if white1 a then Some r1
      else
        match r1 with
        | EmptyString => None
        | String b r2 =>
            if white2 a b then Some r2
            else
              match r2 with
              | EmptyString => None
              | String c r3 => if white3 a b c then Some r3 else None
              end
        end
  end.

(** [String.prototype.trimStart]: leading white space characters are
    dropped one after the other. *)
Fixpoint trimStart (s : string) : string :=
  match s with
  | EmptyString => EmptyString
  | String a r1 =>
      if white1 a then trimStart r1
      else
        match r1 with
        | EmptyString => s
        | String b r2 =>
            if white2 a b then trimStart r2
            else
              match r2 with
              | EmptyString => s
              | String c r3 => if white3 a b c then trimStart r3 else s
              end
        end
  end.

(** Nothing but white space characters. *)
Definition all_white (s : string) : bool :=
  match trimStart s with
  | EmptyString => true
  | String _ _ => false
  end.

(** [String.prototype.trimEnd]: the string is cut where the rest is
    nothing but white space. *)
Fixpoint trimEnd (s : string) : string :=
  match s with
  | EmptyString => EmptyString
  | String c s' => if all_white s then EmptyString else String c (trimEnd s')
  end.

(** [String.prototype.trim] *)
Definition trim (s : string) : string := trimEnd (trimStart s).

(** *** Numbers to strings *)

Definition decimal (z : Z) : string := NilZero.string_of_int (Z.to_int z).

(** [a * 2^ea * 10^pa] compared with [b * 2^eb * 10^pb], exactly. *)
Definition compare_scaled (a ea pa b eb pb : Z) : comparison :=
  let me := Z.min ea eb in
  let mp := Z.min pa pb in
  (a * 2 ^ (ea - me) * 10 ^ (pa - mp) ?= b * 2 ^ (eb - me) * 10 ^ (pb - mp)).

(** The [n] with [10^(n-1) <= m * 2^e < 10^n], searched upwards. *)
Fixpoint decimal_exponent (fuel : nat) (m e n : Z) : Z :=
  match fuel with
  | O => n
  | S fuel' =>
      match compare_scaled m e 0 1 0 n with
      | Lt => n
      | _ => decimal_exponent fuel' m e (n + 1)
      end
  end.

(** [s * 10^(n-k)] rounds to the binary64 value [m * 2^e]: it lies between
    the midpoints to the two neighbours, which count when [m] is even. *)
Definition rounds_to (m e n k s : Z) : bool :=
  let below := if (m =? 2 ^ 52) && (-1074 <? e) then 4 * m - 1 else 4 * m - 2 in
  let above := 4 * m + 2 in
  match compare_scaled s 0 (n - k) below (e - 2) 0 with
  | Gt => true
  | Eq => Z.even m
  | Lt => false
  end
  && match compare_scaled s 0 (n - k) above (e - 2) 0 with
     | Lt => true
     | Eq => Z.even m
     | Gt => false
     end.

(** The digits [s] of the shortest decimal that rounds to [m * 2^e], and
    their number [k]; of two decimals of that length the closer one, and
    the even one on a tie. Seventeen digits always suffice. *)
Fixpoint shortest (fuel : nat) (m e n k : Z) : Z * Z :=
  match fuel with
  | O => (0, k)
  | S fuel' =>
      let low := (m * 2 ^ Z.max e 0 * 10 ^ Z.max (k - n) 0)
                 / (2 ^ Z.max (- e) 0 * 10 ^ Z.max (n - k) 0) in
      let high := low + 1 in
      match rounds_to m e n k low, rounds_to m e n k high with
      | true, true =>
          match compare_scaled (2 * m) e 0 (2 * low + 1) 0 (n - k) with
          | Lt => (low, k)
          | Gt => (high, k)
          | Eq => (if Z.even low then low else high, k)
          end
      | true, false => (low, k)
      | false, true => (high, k)
      | false, false => shortest fuel' m e n (k + 1)
      end
  end.

Fixpoint zeros (n : nat) : string :=
  match n with
  | O => EmptyString
  | S n' => String "0" (zeros n')
  end.

Fixpoint strip_zeros (s : string) : string :=
  match s with
  | EmptyString => EmptyString
  | String c s' =>
      match strip_zeros s' with
      | EmptyString => if Ascii.eqb c "0" then EmptyString else String c EmptyString
      | t => String c t
      end
  end.

(** The digits without their trailing zeros; the first digit stays. *)
Definition significant (s : string) : string :=
  match s with
  | EmptyString => EmptyString
  | String c s' => String c (strip_zeros s')
  end.

(** [Number::toString] of the positive finite value [m * 2^e]: plain
    digits up to 21 integer digits and down to 6 leading zeros of a
    fraction, exponent form outside. *)
Definition positive_toString (m : positive) (e : Z) : string :=
  let n0 := decimal_exponent 700 (Z.pos m) e (-330) in
  let '(s, k0) := shortest 17 (Z.pos m) e n0 1 in
  let all := decimal s in
  let n := n0 + (Z.of_nat (String.length all) - k0) in
  let ds := significant all in
  let k := Z.of_nat (String.length ds) in
  if (k <=? n) && (n <=? 21) then ds +:+ zeros (Z.to_nat (n - k))
  else if (0 <? n) && (n <=? 21)
  then substring 0 (Z.to_nat n) ds +:+ "."
       +:+ substring (Z.to_nat n) (Z.to_nat (k - n)) ds
  else if (-6 <? n) && (n <=? 0) then "0." +:+ zeros (Z.to_nat (- n)) +:+ ds
  else
    let exponent := (if n - 1 <? 0 then "-" else "+") +:+ decimal (Z.abs (n - 1)) in
    if k =? 1 then ds +:+ "e" +:+ exponent
    else substring 0 1 ds +:+ "."
         +:+ substring 1 (Z.to_nat (k - 1)) ds +:+ "e" +:+ exponent.

(** [Number::toString] *)
Definition number_toString (n : number) : string :=
  match Prim2SF n with
  | S754_nan => "NaN"
  | S754_zero _ => "0"
  | S754_infinity false => "Infinity"
  | S754_infinity true => "-Infinity"
  | S754_finite false m e => positive_toString m e
  | S754_finite true m e => String "-" (positive_toString m e)
  end.

(** [ToString] on the scalars. *)
Definition toString (v : jsval) : string :=
  match v with
  | JUndefined => "undefined"
  | JNull => "null"
  | JBool true => "true"
  | JBool false => "false"
  | JNumber n => number_toString n
  | JString s => s
  end.

(** *** Strings to numbers *)

Definition decimal_digit (c : ascii) : option Z :=
  let n := Z.of_nat (nat_of_ascii c) in
  if (48 <=? n)%Z && (n <=? 57)%Z then Some (n - 48)%Z else None.

Definition hex_digit (c : ascii) : option Z :=
  let n := Z.of_nat (nat_of_ascii c) in
  if (48 <=? n)%Z && (n <=? 57)%Z then Some (n - 48)%Z
  else if (97 <=? n)%Z && (n <=? 102)%Z then Some (n - 87)%Z
  else if (65 <=? n)%Z && (n <=? 70)%Z then Some (n - 55)%Z
  else None.

(** The longest prefix of radix-[R] digits, read as an integer; [acc] is
    [None] until a digit has been seen. *)
Fixpoint digits (R : Z) (digit : ascii → option Z) (s : string)
    (acc : option Z) : option Z :=
  match s with
  | EmptyString => acc
  | String c s' =>
      match digit c with
      | Some d => digits R digit s' (Some (R * default 0%Z acc + d)%Z)
      | None => acc
      end
  end.

(** The number value of the integer [k] with its sign: the nearest
    binary64 value, ties to even, an infinity beyond the range, and [-0]
    for a negated zero. *)
Definition of_integer (neg : bool) (k : Z) : number :=
  if (k =? 0)%Z then (if neg then neg_zero else zero)
  else SF2Prim (binary_normalize prec emax (if neg then - k else k) 0 false).

(** [parseInt(string)] with no radix argument: leading white space is
    skipped, a sign is read, a [0x]/[0X] prefix selects radix 16, and the
    digits up to the first other character are the result; no digit at
    all gives [NaN]. *)
Definition parseInt_string (s : string) : number :=
  let s1 := trimStart s in
  let '(neg, s2) :=
    match s1 with
    | String "-" r => (true, r)
    | String "+" r => (false, r)
    | _ => (false, s1)
    end in
  let m :=
    match s2 with
    | String "0" (String "x" r) => digits 16 hex_digit r None
    | String "0" (String "X" r) => digits 16 hex_digit r None
    | _ => digits 10 decimal_digit s2 None
    end in
  match m with
  | None => NaN
  | Some k => of_integer neg k
  end.

(** [parseInt(v)]: the argument is converted with [ToString] first. *)
Definition parseInt (v : jsval) : number := parseInt_string (toString v).

End JS.

(** ** Documents and collections *)

(** A BSON ObjectId, kept abstract. *)
Definition ObjectId : Type := N.

(** [roomSchema]. The position of a room in the collection stands for its
    [_id]; rooms are never inserted or removed after seeding. *)
Module Room.
Record t : Type := mk {
  roomNumber : string;
  roomType : string;
  price : number;
  available : bool
}.

(** [room.available = b] *)
Definition set_available (b : bool) (r : t) : t :=
  mk (roomNumber r) (roomType r) (price r) b.
End Room.

(** [bookingSchema], with the [createdAt] stamp of [timestamps: true]. *)
Module Booking.
Record t : Type := mk {
  _id : ObjectId;
  guestName : string;
  guestPhone : string;
  roomNumber : string;
  days : number;
  totalAmount : number;
  createdAt : Z
}.
End Booking.

(** The object handed to [new Booking({...})], before the schema casts its
    fields. *)
Module BookingInit.
Record t : Type := mk {
  guestName : string;
  guestPhone : string;
  roomNumber : jsval;
  days : number;
  totalAmount : number
}.
End BookingInit.

(** The database: the [rooms] and [bookings] collections. *)
Record Store : Type := mkStore {
  rooms : list Room.t;
  bookings : list Booking.t
}.

(** What a request gets from its environment: the ObjectId that
    [new Booking] generates and the clock read by the timestamp plugin. *)
Record Env : Type := mkEnv {
  new_id : ObjectId;
  now : Z
}.

(** ** Requests and responses *)

(** [req.body] of [POST /api/book]. *)
Module BookBody.
Record t : Type := mk {
  guestName : jsval;
  guestPhone : jsval;
  roomNumber : jsval;
  days : jsval
}.
End BookBody.

(** [req.body] of [POST /api/cancel]. *)
Module CancelBody.
Record t : Type := mk {
  id : jsval;
  roomNumber : jsval
}.
End CancelBody.

(** [res.status(s).json({ message, booking })]; [res.json] alone is status
    200. *)
Record Response : Type := mkResponse {
  status : nat;
  message : string;
  booking : option Booking.t
}.

Definition json (s : nat) (msg : string) : Response := mkResponse s msg None.

(** ** Asynchronous code with exceptions *)

Inductive Completion (A : Type) : Type :=
| Normal (a : A)
| Throw (error : string).
Arguments Normal {A} a.
Arguments Throw {A} error.

(** An [async] body run against the database. A [Throw] carries the store
    as it was when the exception was raised: nothing is rolled back. *)
Definition Async (A : Type) : Type := Store → Completion A * Store.

#[global] Instance Async_ret : MRet Async := λ A a st, (Normal a, st).

#[global] Instance Async_bind : MBind Async := λ A B k c st,
  match c st with
  | (Normal a, st') => k a st'
  | (Throw e, st') => (Throw e, st')
  end.

Definition throw {A : Type} (e : string) : Async A := λ st, (Throw e, st).

Definition readStore : Async Store := λ st, (Normal st, st).

Definition setRooms (rs : list Room.t) : Async unit :=
  λ st, (Normal tt, mkStore rs (bookings st)).

Definition setBookings (bs : list Booking.t) : Async unit :=
  λ st, (Normal tt, mkStore (rooms st) bs).

(** [try { body } catch (error) { res.status(500).json({ message, ... }) }] *)
Definition tryCatch (body : Async Response) (failure : string)
    (st : Store) : Response * Store :=
  match body st with
  | (Normal r, st') => (r, st')
  | (Throw _, st') => (json 500 failure, st')
  end.

(** ** Mongoose operations used by the handlers *)

Module Mongoose.

(** The cast of a [String] path, as applied to the truthy scalars that
    reach it: strings are kept, numbers and booleans are printed. *)
Definition castString (v : jsval) : string := JS.toString v.

(** [Room.findOne({ roomNumber })]: the first room whose number is the
    cast value, with its position. *)
Definition Room_findOne (roomNumber : jsval) : Async (option (nat * Room.t)) :=
  st ← readStore;
  mret (list_find (λ r, Room.roomNumber r = castString roomNumber) (rooms st)).

(** [room.save()] after an assignment to [room.available]: the one
    modified path is written to the document at that position. *)
Definition Room_save (i : nat) (r : Room.t) : Async unit :=
  st ← readStore;
  setRooms (alter (Room.set_available (Room.available r)) i (rooms st)).

(** Schema validation of a new booking: the two names are [required]
    strings, which an empty string does not satisfy; [roomNumber] is cast
    to a string and [required] too; [days] and [totalAmount] must be
    numbers, which [NaN] is not. *)
Definition Booking_validate (e : Env) (b : BookingInit.t) : option Booking.t :=
  if negb (PrimFloat.is_nan (BookingInit.days b))
     && negb (PrimFloat.is_nan (BookingInit.totalAmount b))
     && bool_decide (BookingInit.guestName b ≠ "")
     && bool_decide (BookingInit.guestPhone b ≠ "")
     && bool_decide (castString (BookingInit.roomNumber b) ≠ "")
  then Some (Booking.mk (new_id e)
               (BookingInit.guestName b) (BookingInit.guestPhone b)
               (castString (BookingInit.roomNumber b))
               (BookingInit.days b) (BookingInit.totalAmount b) (now e))
  else None.

(** [newBooking.save()]: validate, then insert; the unique index on
    [_id] refuses an id that is already stored. *)
Definition Booking_save (e : Env) (b : BookingInit.t) : Async Booking.t :=
  match Booking_validate e b with
  | None => throw "Booking validation failed"
  | Some doc =>
      st ← readStore;
      if bool_decide (Booking._id doc ∈ (Booking._id <$> bookings st))
      then throw "E11000 duplicate key error"
      else setBookings (bookings st ++ [doc]);; mret doc
  end.

Section WithObjectIdCast.

(** The cast of a request value to an ObjectId ([None]: the value is
    not the text of an ObjectId and the query raises a CastError). *)
Context (castObjectId : jsval → option ObjectId).

(** [Booking.findByIdAndDelete(id)] *)
Definition Booking_findByIdAndDelete (id : jsval) : Async (option Booking.t) :=
  match castObjectId id with
  | None => throw "Cast to ObjectId failed"
  | Some o =>
      st ← readStore;
      match list_find (λ b, Booking._id b = o) (bookings st) with
      | None => mret None
      | Some (i, b) => setBookings (delete i (bookings st));; mret (Some b)
      end
  end.

End WithObjectIdCast.

(** [Room.findOneAndUpdate({ roomNumber }, { available: true })] *)
Definition Room_findOneAndUpdate (roomNumber : jsval) : Async unit :=
  st ← readStore;
  match list_find (λ r, Room.roomNumber r = castString roomNumber) (rooms st) with
  | None => mret tt
  | Some (i, _) => setRooms (alter (Room.set_available true) i (rooms st))
  end.

End Mongoose.

(** ** The server *)

(** [initializeData]: the three sample rooms are inserted into an empty
    collection. *)
Definition sampleRooms : list Room.t :=
  [ Room.mk "101" "Single" 1000 true;
    Room.mk "102" "Double" 1500 true;
    Room.mk "103" "Deluxe" 2000 true ].

Definition initializeData (st : Store) : Store :=
  if bool_decide (length (rooms st) = 0%nat)
  then mkStore (rooms st ++ sampleRooms) (bookings st)
  else st.

(** The store of a fresh deployment. *)
Definition seeded : Store := initializeData (mkStore [] []).

(** [Room.find().sort({ roomNumber: 1 })]: ascending, strings compared
    character by character. *)
Definition roomNumber_le (a b : Room.t) : Prop :=
  String.le (Room.roomNumber a) (Room.roomNumber b).

#[global] Instance roomNumber_le_dec : RelDecision roomNumber_le.
Proof. intros a b. unfold roomNumber_le. apply _. Defined.

(** [Booking.find().sort({ createdAt: -1 })]: descending. *)
Definition createdAt_ge (a b : Booking.t) : Prop :=
  (Booking.createdAt b ≤ Booking.createdAt a)%Z.

#[global] Instance createdAt_ge_dec : RelDecision createdAt_ge.
Proof. intros a b. unfold createdAt_ge. apply _. Defined.

(** [GET /api/rooms] *)
Definition getRooms (st : Store) : nat * list Room.t :=
  (200%nat, merge_sort roomNumber_le (rooms st)).

(** [GET /api/bookings] *)
Definition getBookings (st : Store) : nat * list Booking.t :=
  (200%nat, merge_sort createdAt_ge (bookings st)).

(** [guestName.trim()]: a method call, which only a string supports; on a
    number or a boolean [trim] is [undefined] and the call is a TypeError. *)
Definition call_trim (v : jsval) : Async string :=
  match v with
  | JString s => mret (JS.trim s)
  | _ => throw "TypeError: trim is not a function"
  end.

(** [POST /api/book] *)
Definition book_body (e : Env) (body : BookBody.t) : Async Response :=
  let guestName := BookBody.guestName body in
  let guestPhone := BookBody.guestPhone body in
  let roomNumber := BookBody.roomNumber body in
  let days := BookBody.days body in
  if negb (JS.truthy guestName) || negb (JS.truthy guestPhone)
     || negb (JS.truthy roomNumber) || negb (JS.truthy days)
  then mret (json 400 "All fields are required")
  else
    room ← Mongoose.Room_findOne roomNumber;
    match room with
    | None => mret (json 404 "Room not found")
    | Some (i, room) =>
        if negb (Room.available room)
        then mret (json 400 "Room is not available")
        else
          let totalAmount := JS.mul (Room.price room) (JS.parseInt days) in
          name ← call_trim guestName;
          phone ← call_trim guestPhone;
          let newBooking :=
            BookingInit.mk name phone roomNumber (JS.parseInt days) totalAmount in
          saved ← Mongoose.Booking_save e newBooking;
          Mongoose.Room_save i (Room.set_available false room);;
          mret (mkResponse 201 "Booking Successful!" (Some saved))
    end.

Definition book (e : Env) (body : BookBody.t) : Store → Response * Store :=
  tryCatch (book_body e body) "Error creating booking".

Section Cancel.

Context (castObjectId : jsval → option ObjectId).

(** [POST /api/cancel] *)
Definition cancel_body (body : CancelBody.t) : Async Response :=
  let id := CancelBody.id body in
  let roomNumber := CancelBody.roomNumber body in
  if negb (JS.truthy id) || negb (JS.truthy roomNumber)
  then mret (json 400 "Booking ID and room number are required")
  else
    deletedBooking ← Mongoose.Booking_findByIdAndDelete castObjectId id;
    match deletedBooking with
    | None => mret (json 404 "Booking not found")
    | Some _ =>
        Mongoose.Room_findOneAndUpdate roomNumber;;
        mret (json 200 "Booking Cancelled Successfully!")
    end.

Definition cancel (body : CancelBody.t) : Store → Response * Store :=
  tryCatch (cancel_body body) "Error cancelling booking".

(** *** Runs of the server *)

Inductive Request : Type :=
| PostBook (e : Env) (body : BookBody.t)
| PostCancel (body : CancelBody.t).

Definition handle (q : Request) (st : Store) : Response * Store :=
  match q with
  | PostBook e body => book e body st
  | PostCancel body => cancel body st
  end.

(** The store after a sequence of requests, served one at a time. *)
Definition serve (qs : list Request) (st : Store) : Store :=
  foldl (λ st q, (handle q st).2) st qs.

(** The booking a cancel request names, if any. *)
Definition named_booking (body : CancelBody.t) (st : Store) : option Booking.t :=
  if JS.truthy (CancelBody.id body)
  then o ← castObjectId (CancelBody.id body);
       snd <$> list_find (λ b, Booking._id b = o) (bookings st)
  else None.

(** A cancel request that gives, as its [roomNumber], the room of the
    booking it names; the front-end builds its requests this way. *)
Definition own_room (q : Request) (st : Store) : Prop :=
  match q with
  | PostBook _ _ => True
  | PostCancel body =>
      ∀ b, named_booking body st = Some b →
           Mongoose.castString (CancelBody.roomNumber body) = Booking.roomNumber b
  end.

Inductive reachable : Store → Prop :=
| reachable_seeded : reachable seeded
| reachable_handle q st : reachable st → reachable (handle q st).2.

Inductive reachable_own : Store → Prop :=
| reachable_own_seeded : reachable_own seeded
| reachable_own_handle q st :
    reachable_own st → own_room q st → reachable_own (handle q st).2.

End Cancel.

(** ** The front-end *)

Module App.

(** [cancelBooking(booking._id, booking.roomNumber)], for a row of the
    bookings table; [text] prints an ObjectId the way the JSON listing
    does. *)
Definition cancelBooking (text : ObjectId → string) (b : Booking.t) : CancelBody.t :=
  CancelBody.mk (JString (text (Booking._id b))) (JString (Booking.roomNumber b)).

End App.

(** ** State predicates *)

(** The number of booking records that reference a room number. *)
Definition references (rn : string) (bs : list Booking.t) : nat :=
  length (filter (λ b, Booking.roomNumber b = rn) bs).

(** The occupancy invariant of the data model. *)
Definition occupancy (st : Store) : Prop :=
  ∀ r, r ∈ rooms st →
       Room.available r = false ↔ references (Room.roomNumber r) (bookings st) = 1%nat.

(** The room a request value names: the first room with that number. *)
Definition named_room (roomNumber : jsval) (st : Store) : option (nat * Room.t) :=
  list_find (λ r, Room.roomNumber r = Mongoose.castString roomNumber) (rooms st).

(** The four fields of a book request pass the test of line 83 of server.js. *)
Definition book_fields_given (body : BookBody.t) : bool :=
  JS.truthy (BookBody.guestName body) && JS.truthy (BookBody.guestPhone body)
  && JS.truthy (BookBody.roomNumber body) && JS.truthy (BookBody.days body).

(** Both fields of a cancel request pass the test of line 125 of server.js. *)
Definition cancel_fields_given (body : CancelBody.t) : bool :=
  JS.truthy (CancelBody.id body) && JS.truthy (CancelBody.roomNumber body).

(** The position of the room a request is about. *)
Definition targeted (q : Request) (st : Store) : option nat :=
  match q with
  | PostBook _ body => fst <$> named_room (BookBody.roomNumber body) st
  | PostCancel body => fst <$> named_room (CancelBody.roomNumber body) st
  end.

(** The invariant in the form that a request preserves: room numbers are
    unique, a free room has no booking and a taken room exactly one. *)
Definition consistent (st : Store) : Prop :=
  NoDup (Room.roomNumber <$> rooms st)
  ∧ ∀ r, r ∈ rooms st →
      references (Room.roomNumber r) (bookings st)
      = if Room.available r then 0%nat else 1%nat.

(** A string that starts, or ends, with a white space character. *)
Definition starts_white (s : string) : bool :=
  match JS.white_prefix s with
  | Some _ => true
  | None => false
  end.

Fixpoint ends_white (s : string) : bool :=
  match s with
  | EmptyString => false
  | String _ s' =>
      match JS.white_prefix s with
      | Some EmptyString => true
      | _ => ends_white s'
      end
  end.

(** [t] is [s] without its leading and trailing white space. *)
Definition trimmed_from (s t : string) : Prop :=
  (∃ l r, s = l +:+ t +:+ r ∧ JS.all_white l = true ∧ JS.all_white r = true)
  ∧ starts_white t = false ∧ ends_white t = false.

(** An ObjectId cast to run examples with: the text of an ObjectId is 24
    hexadecimal digits. *)
Definition hexObjectId (v : jsval) : option ObjectId :=
  match v with
  | JString s =>
      if bool_decide (String.length s = 24%nat)
         && forallb (λ c, bool_decide (is_Some (JS.hex_digit c))) (list_ascii_of_string s)
      then Z.to_N <$> JS.digits 16 JS.hex_digit s None
      else None
  | _ => None
  end.

(** ** The front-end state and its actions *)

(** The [useState] cells of [App]. [days] starts as the number 1 and holds
    the text of the input once the user has typed in it. *)
Module AppState.
Record t : Type := mk {
  rooms : list Room.t;
  bookings : list Booking.t;
  guestName : string;
  guestPhone : string;
  selectedRoom : string;
  days : jsval;
  message : string;
  loading : bool
}.
End AppState.

Module Frontend.

(** The state of a freshly mounted component, before its first load. *)
Definition initial : AppState.t :=
  AppState.mk [] [] "" "" "" (JNumber 1) "" false.

(** [JSON.stringify] of a number, as the server reads it back: [NaN] and
    the infinities are written as [null], and [-0] as [0]. *)
Definition json_number (n : number) : jsval :=
  if PrimFloat.is_nan n || PrimFloat.is_infinity n then JNull
  else if PrimFloat.eqb n 0 then JNumber 0
  else JNumber n.

(** The body that [bookRoom] posts. *)
Definition bookRequest (a : AppState.t) : BookBody.t :=
  BookBody.mk (JString (JS.trim (AppState.guestName a)))
    (JString (JS.trim (AppState.guestPhone a)))
    (JString (AppState.selectedRoom a))
    (json_number (JS.parseInt (AppState.days a))).

(** axios resolves on a status from 200 to 299 and rejects otherwise. *)
Definition resolved (res : Response) : bool :=
  (200 <=? status res)%nat && (status res <? 300)%nat.

(** [error.response?.data?.message || fallback] *)
Definition error_message (res : Response) (fallback : string) : string :=
  if String.eqb (message res) "" then fallback else message res.

(** [loadRooms] and [loadBookings], with a server that answers. *)
Definition loadRooms (st : Store) (a : AppState.t) : AppState.t :=
  AppState.mk (getRooms st).2 (AppState.bookings a) (AppState.guestName a)
    (AppState.guestPhone a) (AppState.selectedRoom a) (AppState.days a)
    (AppState.message a) (AppState.loading a).

Definition loadBookings (st : Store) (a : AppState.t) : AppState.t :=
  AppState.mk (AppState.rooms a) (getBookings st).2 (AppState.guestName a)
    (AppState.guestPhone a) (AppState.selectedRoom a) (AppState.days a)
    (AppState.message a) (AppState.loading a).

(** The effect run on mount. *)
Definition mount (st : Store) (a : AppState.t) : AppState.t :=
  loadBookings st (loadRooms st a).

(** [rooms.filter(room => room.available)]: the rooms offered in the
    select and listed on the card. *)
Definition availableRooms (a : AppState.t) : list Room.t :=
  filter (λ r, Room.available r = true) (AppState.rooms a).

(** [bookRoom], from the submit to the end of its [finally]: the store
    and the component state it leaves. *)
Definition bookRoom (e : Env) (st : Store) (a : AppState.t) : Store * AppState.t :=
  let response := book e (bookRequest a) st in
  if resolved response.1
  then (response.2,
        AppState.mk (getRooms response.2).2 (getBookings response.2).2
          "" "" "" (JNumber 1) (message response.1) false)
  else (response.2,
        AppState.mk (AppState.rooms a) (AppState.bookings a)
          (AppState.guestName a) (AppState.guestPhone a)
          (AppState.selectedRoom a) (AppState.days a)
          (error_message response.1 "Error creating booking. Please try again.")
          false).

(** [cancelBooking(booking._id, booking.roomNumber)] for a row [b] of the
    table; [confirm] is the answer to [window.confirm]. *)
Definition cancelBooking (castObjectId : jsval → option ObjectId)
    (text : ObjectId → string) (confirm : bool) (b : Booking.t)
    (st : Store) (a : AppState.t) : Store * AppState.t :=
  if negb confirm then (st, a)
  else
    let response := cancel castObjectId (App.cancelBooking text b) st in
    if resolved response.1
    then (response.2,
          AppState.mk (getRooms response.2).2 (getBookings response.2).2
            (AppState.guestName a) (AppState.guestPhone a)
            (AppState.selectedRoom a) (AppState.days a)
            (message response.1) false)
    else (response.2,
          AppState.mk (AppState.rooms a) (AppState.bookings a)
            (AppState.guestName a) (AppState.guestPhone a)
            (AppState.selectedRoom a) (AppState.days a)
            (error_message response.1 "Error cancelling booking.")
            false).

End Frontend.

(** ** More state predicates *)

(** The booking that a successful request stores. *)
Definition new_booking (e : Env) (name phone : string) (room : Room.t)
    (d : number) : Booking.t :=
  Booking.mk (new_id e) (JS.trim name) (JS.trim phone) (Room.roomNumber room)
    d (JS.mul (Room.price room) d) (now e).

(** What a request never changes of a room. *)
Definition room_record (r : Room.t) : string * string * number :=
  (Room.roomNumber r, Room.roomType r, Room.price r).

(** A stored booking as the book handler writes it: it references a room
    of the store, its total is that room's price times its days, and its
    two names are not empty and carry no outer white space. *)
Definition booking_sound (st : Store) (b : Booking.t) : Prop :=
  (∃ r, r ∈ rooms st ∧ Room.roomNumber r = Booking.roomNumber b
        ∧ Booking.totalAmount b = JS.mul (Room.price r) (Booking.days b))
  ∧ Booking.guestName b ≠ "" ∧ Booking.guestPhone b ≠ ""
  ∧ JS.trim (Booking.guestName b) = Booking.guestName b
  ∧ JS.trim (Booking.guestPhone b) = Booking.guestPhone b.

(** What every run of the server keeps true of the store. *)
Definition wellformed (st : Store) : Prop :=
  room_record <$> rooms st = room_record <$> sampleRooms
  ∧ NoDup (Booking._id <$> bookings st)
  ∧ ∀ b, b ∈ bookings st → booking_sound st b.

(** The number a string of decimal digits denotes, read after [acc]. *)
Fixpoint uint_value (d : Decimal.uint) (acc : Z) : Z :=
  match d with
  | Decimal.Nil => acc
  | Decimal.D0 l => uint_value l (10 * acc)
  | Decimal.D1 l => uint_value l (10 * acc + 1)
  | Decimal.D2 l => uint_value l (10 * acc + 2)
  | Decimal.D3 l => uint_value l (10 * acc + 3)
  | Decimal.D4 l => uint_value l (10 * acc + 4)
  | Decimal.D5 l => uint_value l (10 * acc + 5)
  | Decimal.D6 l => uint_value l (10 * acc + 6)
  | Decimal.D7 l => uint_value l (10 * acc + 7)
  | Decimal.D8 l => uint_value l (10 * acc + 8)
  | Decimal.D9 l => uint_value l (10 * acc + 9)
  end.

(** A string that [parseInt] stops at: it is empty or starts with a
    character that is neither a decimal digit nor [x] or [X]. *)
Definition stops_number (s : string) : Prop :=
  match s with
  | EmptyString => True
  | String c _ => JS.decimal_digit c = None ∧ c ≠ "x"%char ∧ c ≠ "X"%char
  end.

(** The text of an ObjectId: 24 hexadecimal digits, most significant
    first. *)
Definition hex_char (n : N) : ascii :=
  ascii_of_N (if (n <? 10)%N then 48 + n else 87 + n).

Fixpoint hex_digits (k : nat) (o : N) (tail : string) : string :=
  match k with
  | O => tail
  | S k' => hex_digits k' (o / 16)%N (String (hex_char (o mod 16)%N) tail)
  end.

Definition hexText (o : ObjectId) : string := hex_digits 24 o "".

(** The second character is not the [x] of a hexadecimal prefix. *)
Definition no_hex_mark (s : string) : Prop :=
  match s with
  | EmptyString => True
  | String c _ => c ≠ "x"%char ∧ c ≠ "X"%char
  end.

(** The form passes the server's presence test once its fields are
    trimmed and its days parsed. *)
Definition form_valid (a : AppState.t) : Prop :=
  JS.trim (AppState.guestName a) ≠ ""
  ∧ JS.trim (AppState.guestPhone a) ≠ ""
  ∧ AppState.selectedRoom a ≠ ""
  ∧ JS.truthy (Frontend.json_number (JS.parseInt (AppState.days a))) = true.

(** The stores reached when the server is used through the front-end only:
    forms are submitted with any content, and a cancel button is clicked on
    a row of the current bookings, whose id the server reads back. *)
Inductive ui_reachable (castObjectId : jsval → option ObjectId)
    (text : ObjectId → string) : Store → Prop :=
| ui_seeded : ui_reachable castObjectId text seeded
| ui_bookRoom e a st :
    ui_reachable castObjectId text st →
    ui_reachable castObjectId text (Frontend.bookRoom e st a).1
| ui_cancelBooking confirm b a st :
    ui_reachable castObjectId text st →
    b ∈ bookings st →
    castObjectId (JString (text (Booking._id b))) = Some (Booking._id b) →
    ui_reachable castObjectId text
      (Frontend.cancelBooking castObjectId text confirm b st a).1.

(** * Properties *)

(** ** JavaScript primitives on sample values *)

Example parseInt_number :
  JS.parseInt (JNumber (-3)) = (-3)%float
  ∧ JS.parseInt (JNumber 2.7) = 2%float
  ∧ JS.parseInt (JNumber 1e21) = 1%float
  ∧ JS.parseInt (JNumber 0.0000005) = 5%float.
Proof. vm_compute. done. Qed.

Example parseInt_truncates : JS.parseInt (JString " 2.7 nights") = 2%float.
Proof. vm_compute. done. Qed.

Example parseInt_hex : JS.parseInt (JString "0x1f") = 31%float.
Proof. vm_compute. done. Qed.

Example parseInt_rounds :
  JS.parseInt (JString "9007199254740993") = 9007199254740992%float.
Proof. vm_compute. done. Qed.

Example parseInt_no_digits : JS.parseInt (JString "two") = JS.NaN.
Proof. vm_compute. done. Qed.

Example parseInt_boolean : JS.parseInt (JBool true) = JS.NaN.
Proof. vm_compute. done. Qed.

Example number_toString_samples :
  map JS.number_toString
    [0.1; 1e21; 1e-7; 123456789012345680000; 5e-324; 1152921504606846976;
     -2.5; 100; 0.000001; (-0); 1.7976931348623157e308]%float
  = ["0.1"; "1e+21"; "1e-7"; "123456789012345680000"; "5e-324";
     "1152921504606847000"; "-2.5"; "100"; "0.000001"; "0";
     "1.7976931348623157e+308"].
Proof. vm_compute. done. Qed.

Example mul_rounds :
  JS.mul 9007199254740991 3 = 27021597764222972%float
  ∧ JS.mul 0.1 3 = 0.30000000000000004%float.
Proof. vm_compute. done. Qed.

Example trim_sample : JS.trim "  Ann Lee  " = "Ann Lee".
Proof. vm_compute. done. Qed.

(** A no-break space (bytes 194, 160) and a line separator (bytes 226,
    128, 168) are trimmed like a space. *)
Example trim_unicode :
  JS.trim (String "194" (String "160" ("Ann"
             +:+ String "226" (String "128" (String "168" "")))))
  = "Ann"
  ∧ JS.trim (String "194" (String "160" "")) = "".
Proof. vm_compute. done. Qed.

Example hexObjectId_sample :
  hexObjectId (JString "00000000000000000000001f") = Some 31%N
  ∧ hexObjectId (JString "abc") = None.
Proof. split; reflexivity. Qed.

Example seeded_rooms : seeded = mkStore sampleRooms [].
Proof. reflexivity. Qed.

(** ** Running the monad *)

Ltac unfold_async :=
  unfold mbind, mret, Async_bind, Async_ret, throw, readStore, setRooms,
    setBookings in *.

Lemma book_required e body st :
  book_fields_given body = false →
  book e body st = (json 400 "All fields are required", st).
Proof.
  unfold book_fields_given, book, tryCatch, book_body. intros H.
  destruct (JS.truthy (BookBody.guestName body)),
    (JS.truthy (BookBody.guestPhone body)),
    (JS.truthy (BookBody.roomNumber body)),
    (JS.truthy (BookBody.days body)); simpl in *; try discriminate; reflexivity.
Qed.

Lemma book_unfold e body st :
  book_fields_given body = true →
  book e body st =
    match named_room (BookBody.roomNumber body) st with
    | None => (json 404 "Room not found", st)
    | Some (i, room) =>
        if Room.available room then
          match BookBody.guestName body, BookBody.guestPhone body with
          | JString name, JString phone =>
              match Mongoose.Booking_validate e
                      (BookingInit.mk (JS.trim name) (JS.trim phone)
                         (BookBody.roomNumber body) (JS.parseInt (BookBody.days body))
                         (JS.mul (Room.price room)
                            (JS.parseInt (BookBody.days body)))) with
              | Some doc =>
                  if bool_decide (Booking._id doc ∈ (Booking._id <$> bookings st))
                  then (json 500 "Error creating booking", st)
                  else (mkResponse 201 "Booking Successful!" (Some doc),
                        mkStore (alter (Room.set_available false) i (rooms st))
                          (bookings st ++ [doc]))
              | None => (json 500 "Error creating booking", st)
              end
          | _, _ => (json 500 "Error creating booking", st)
          end
        else (json 400 "Room is not available", st)
    end.
Proof.
  unfold book_fields_given, book, tryCatch, book_body, named_room. intros H.
  destruct (JS.truthy (BookBody.guestName body)),
    (JS.truthy (BookBody.guestPhone body)),
    (JS.truthy (BookBody.roomNumber body)),
    (JS.truthy (BookBody.days body)); simpl in H; try discriminate.
  simpl. unfold Mongoose.Room_findOne, Mongoose.Room_save, Mongoose.Booking_save,
    call_trim. unfold_async. destruct st as [rs bs]. simpl.
  destruct (list_find _ rs) as [[i room]|]; [|reflexivity].
  destruct (Room.available room); simpl; [|reflexivity].
  destruct (BookBody.guestName body); try reflexivity.
  destruct (BookBody.guestPhone body); try reflexivity.
  destruct (Mongoose.Booking_validate _ _) as [doc|]; [|reflexivity].
  simpl. case_bool_decide; reflexivity.
Qed.

Lemma cancel_required cast body st :
  cancel_fields_given body = false →
  cancel cast body st = (json 400 "Booking ID and room number are required", st).
Proof.
  unfold cancel_fields_given, cancel, tryCatch, cancel_body. intros H.
  destruct (JS.truthy (CancelBody.id body)),
    (JS.truthy (CancelBody.roomNumber body)); simpl in *; try discriminate;
    reflexivity.
Qed.

Lemma cancel_unfold cast body st :
  cancel_fields_given body = true →
  cancel cast body st =
    match cast (CancelBody.id body) with
    | None => (json 500 "Error cancelling booking", st)
    | Some o =>
        match list_find (λ b, Booking._id b = o) (bookings st) with
        | None => (json 404 "Booking not found", st)
        | Some (k, _) =>
            (json 200 "Booking Cancelled Successfully!",
             mkStore
               match named_room (CancelBody.roomNumber body) st with
               | None => rooms st
               | Some (j, _) => alter (Room.set_available true) j (rooms st)
               end
               (delete k (bookings st)))
        end
    end.
Proof.
  unfold cancel_fields_given, cancel, tryCatch, cancel_body, named_room. intros H.
  destruct (JS.truthy (CancelBody.id body)),
    (JS.truthy (CancelBody.roomNumber body)); simpl in H; try discriminate.
  simpl. unfold Mongoose.Booking_findByIdAndDelete, Mongoose.Room_findOneAndUpdate.
  unfold_async. destruct st as [rs bs]. simpl.
  destruct (cast _) as [o|]; [|reflexivity].
  cbn. destruct (list_find _ bs) as [[k b]|]; [|reflexivity].
  cbn. destruct (list_find _ rs) as [[j r]|]; reflexivity.
Qed.

(** ** Requests that fail leave the store alone *)

(** What [!v] accepts: the falsy scalars. *)
Lemma falsy_values v :
  JS.truthy v = false ↔
  v = JUndefined ∨ v = JNull ∨ v = JBool false
  ∨ (∃ n, v = JNumber n ∧ (PrimFloat.is_nan n || PrimFloat.eqb n 0) = true)
  ∨ v = JString "".
Proof.
  split.
  - destruct v as [| |[]|n|s]; simpl; intros H; try discriminate; auto 6.
    + apply negb_false_iff in H. right; right; right; left. by exists n.
    + apply negb_false_iff, String.eqb_eq in H. subst. auto 6.
  - intros [->|[->|[->|[(n & -> & H)| ->]]]]; try reflexivity.
    simpl. by rewrite H.
Qed.

(** C6 (amended): a book request in which guestName, guestPhone,
    roomNumber or days is missing or otherwise falsy (null, false, the
    number 0, the empty string) is answered with status 400, and neither
    a booking is stored nor a room modified. *)
Theorem book_missing_field_rejected e body st :
  JS.truthy (BookBody.guestName body) = false
  ∨ JS.truthy (BookBody.guestPhone body) = false
  ∨ JS.truthy (BookBody.roomNumber body) = false
  ∨ JS.truthy (BookBody.days body) = false →
  status (book e body st).1 = 400%nat ∧ (book e body st).2 = st.
Proof.
  intros H. rewrite book_required; [done|].
  unfold book_fields_given.
  destruct H as [->|[->|[->| ->]]]; rewrite ?andb_false_r; reflexivity.
Qed.

Lemma book_missing_field_rejected_witness :
  let body := BookBody.mk (JString "Ann") (JString "555") (JString "101")
                (JNumber 0) in
  status (book (mkEnv 1%N 0) body seeded).1 = 400%nat
  ∧ (book (mkEnv 1%N 0) body seeded).2 = seeded.
Proof.
  apply (book_missing_field_rejected (mkEnv 1%N 0)
           (BookBody.mk (JString "Ann") (JString "555") (JString "101")
              (JNumber 0)) seeded).
  right; right; right. reflexivity.
Defined.

(** C6 (as stated) fails: a request for minus three days passes the test
    of line 83, is booked with a negative total and takes the room. *)
Lemma book_negative_days_accepted :
  let body := BookBody.mk (JString "Ann") (JString "555") (JString "101")
                (JNumber (-3)) in
  let b := Booking.mk 1%N "Ann" "555" "101" (-3) (-3000) 0 in
  book (mkEnv 1%N 0) body seeded =
    (mkResponse 201 "Booking Successful!" (Some b),
     mkStore [ Room.mk "101" "Single" 1000 false;
               Room.mk "102" "Double" 1500 true;
               Room.mk "103" "Deluxe" 2000 true ] [b])
  ∧ status (book (mkEnv 1%N 0) body seeded).1 ≠ 400%nat
  ∧ (book (mkEnv 1%N 0) body seeded).2 ≠ seeded.
Proof. vm_compute. repeat split; discriminate. Qed.




(** ** Trimming *)

Lemma append_nil (x : string) : "" +:+ x = x.
Proof. reflexivity. Qed.

Lemma append_cons c (l x : string) : String c l +:+ x = String c (l +:+ x).
Proof. reflexivity. Qed.

Lemma trimStart_unfold s :
  JS.trimStart s
  = match JS.white_prefix s with
    | Some r => JS.trimStart r
    | None => s
    end.
Proof.
  destruct s as [|a r1]; [done|]. cbn [JS.trimStart JS.white_prefix].
  destruct (JS.white1 a); [done|]. destruct r1 as [|b r2]; [done|].
  destruct (JS.white2 a b); [done|]. destruct r2 as [|c r3]; [done|].
  by destruct (JS.white3 a b c).
Qed.

(** A leading white space character is one to three bytes long. *)
Lemma white_prefix_length s r :
  JS.white_prefix s = Some r → (String.length r < String.length s)%nat.
Proof.
  destruct s as [|a r1]; [done|]. cbn [JS.white_prefix].
  destruct (JS.white1 a); [intros [= <-]; simpl; lia|].
  destruct r1 as [|b r2]; [done|].
  destruct (JS.white2 a b); [intros [= <-]; simpl; lia|].
  destruct r2 as [|c r3]; [done|].
  destruct (JS.white3 a b c); [intros [= <-]; simpl; lia|done].
Qed.

Lemma white_prefix_app s r x :
  JS.white_prefix s = Some r → JS.white_prefix (s +:+ x) = Some (r +:+ x).
Proof.
  destruct s as [|a r1]; [done|]. rewrite append_cons. cbn [JS.white_prefix].
  destruct (JS.white1 a); [by intros [= <-]|].
  destruct r1 as [|b r2]; [done|]. rewrite append_cons.
  destruct (JS.white2 a b); [by intros [= <-]|].
  destruct r2 as [|c r3]; [done|]. rewrite append_cons.
  destruct (JS.white3 a b c); [by intros [= <-]|done].
Qed.

Lemma all_white_unfold s :
  JS.all_white s
  = match JS.white_prefix s with
    | Some r => JS.all_white r
    | None => match s with EmptyString => true | _ => false end
    end.
Proof.
  unfold JS.all_white. rewrite trimStart_unfold.
  by destruct (JS.white_prefix s).
Qed.

Lemma append_assoc (a b c : string) : (a +:+ b) +:+ c = a +:+ (b +:+ c).
Proof.
  induction a as [|x a IH]; [done|]. by rewrite !append_cons, IH.
Qed.

Lemma white_prefix_split s r :
  JS.white_prefix s = Some r →
  ∃ w, s = w +:+ r ∧ JS.white_prefix w = Some "".
Proof.
  destruct s as [|a r1]; [done|]. cbn [JS.white_prefix].
  destruct (JS.white1 a) eqn:W1.
  { intros [= <-]. exists (String a ""). split; [done|].
    cbn [JS.white_prefix]. by rewrite W1. }
  destruct r1 as [|b r2]; [done|].
  destruct (JS.white2 a b) eqn:W2.
  { intros [= <-]. exists (String a (String b "")). split; [done|].
    cbn [JS.white_prefix]. by rewrite W1, W2. }
  destruct r2 as [|c r3]; [done|].
  destruct (JS.white3 a b c) eqn:W3; [|done].
  intros [= <-]. exists (String a (String b (String c ""))). split; [done|].
  cbn [JS.white_prefix]. by rewrite W1, W2, W3.
Qed.

Lemma trimStart_spec s :
  ∃ l, s = l +:+ JS.trimStart s ∧ JS.all_white l = true
       ∧ starts_white (JS.trimStart s) = false.
Proof.
  remember (String.length s) as n eqn:Hn. revert s Hn.
  induction n as [n IH] using lt_wf_ind. intros s Hn.
  rewrite trimStart_unfold. unfold starts_white.
  destruct (JS.white_prefix s) as [r|] eqn:W.
  - pose proof (white_prefix_length s r W) as Hlt.
    destruct (IH (String.length r) ltac:(lia) r eq_refl) as (l & El & Wl & Sl).
    destruct (white_prefix_split s r W) as (w & Es & Ww).
    exists (w +:+ l). split; [|split; [|done]].
    + by rewrite append_assoc, <- El.
    + rewrite all_white_unfold, (white_prefix_app w "" l Ww). done.
  - exists "". by rewrite W.
Qed.

Lemma trimEnd_spec s :
  ∃ r, s = JS.trimEnd s +:+ r ∧ JS.all_white r = true
       ∧ ends_white (JS.trimEnd s) = false.
Proof.
  induction s as [|c s (r & E & Wr & Er)]; [by exists ""|].
  cbn [JS.trimEnd]. destruct (JS.all_white (String c s)) eqn:A.
  - by exists (String c s).
  - exists r. split; [by rewrite append_cons, <- E|]. split; [done|].
    cbn [ends_white].
    destruct (JS.white_prefix (String c (JS.trimEnd s))) as [[|x y]|] eqn:W;
      try done.
    apply (white_prefix_app _ _ r) in W.
    rewrite append_cons, <- E, append_nil in W.
    rewrite all_white_unfold, W in A. congruence.
Qed.

Lemma trimEnd_starts s :
  starts_white s = false → starts_white (JS.trimEnd s) = false.
Proof.
  destruct (trimEnd_spec s) as (r & E & _ & _). unfold starts_white.
  destruct (JS.white_prefix (JS.trimEnd s)) as [x|] eqn:W; [|done].
  apply (white_prefix_app _ _ r) in W. rewrite <- E in W. by rewrite W.
Qed.

Lemma trim_spec s : trimmed_from s (JS.trim s).
Proof.
  unfold trimmed_from, JS.trim.
  destruct (trimStart_spec s) as (l & El & Wl & Sl).
  destruct (trimEnd_spec (JS.trimStart s)) as (r & Er & Wr & Sr).
  split; [|split; [by apply trimEnd_starts | done]].
  exists l, r. split; [|done]. by rewrite <- Er.
Qed.

Lemma trim_empty s : JS.trim s ≠ "" → s ≠ "".
Proof. intros H ->. by apply H. Qed.

(** ** The cast to a string *)

Lemma string_of_uint_nonempty d : NilZero.string_of_uint d ≠ "".
Proof. destruct d; discriminate. Qed.

Lemma decimal_nonempty z : JS.decimal z ≠ "".
Proof.
  unfold JS.decimal, NilZero.string_of_int.
  destruct (Z.to_int z); [apply string_of_uint_nonempty|discriminate].
Qed.

Lemma append_nonempty_l (a b : string) : a ≠ "" → a +:+ b ≠ "".
Proof. destruct a; [done|]. by rewrite append_cons. Qed.

Lemma append_nonempty_r (a b : string) : b ≠ "" → a +:+ b ≠ "".
Proof.
  destruct a; [by rewrite append_nil|]. by rewrite append_cons.
Qed.

Lemma significant_nonempty s : s ≠ "" → JS.significant s ≠ "".
Proof. by destruct s. Qed.

Lemma positive_toString_nonempty m e : JS.positive_toString m e ≠ "".
Proof.
  unfold JS.positive_toString.
  destruct (JS.shortest _ _ _ _ _) as [s k0].
  pose proof (significant_nonempty _ (decimal_nonempty s)) as Hd.
  repeat case_match;
    repeat first [ done
                 | apply append_nonempty_l; done
                 | apply append_nonempty_r ].
Qed.

Lemma number_toString_nonempty n : JS.number_toString n ≠ "".
Proof.
  unfold JS.number_toString.
  destruct (Prim2SF n) as [[]|[]| |[] m e]; try done.
  apply positive_toString_nonempty.
Qed.

Lemma castString_nonempty v : JS.truthy v = true → Mongoose.castString v ≠ "".
Proof.
  destruct v as [| |[]|n|s]; simpl; try discriminate.
  - intros _. apply number_toString_nonempty.
  - intros H. apply negb_true_iff, String.eqb_neq in H. done.
Qed.

(** ** Booking an available room *)

Lemma validate_ok e name phone rn d total :
  name ≠ "" → phone ≠ "" → JS.truthy rn = true →
  PrimFloat.is_nan d = false → PrimFloat.is_nan total = false →
  Mongoose.Booking_validate e (BookingInit.mk name phone rn d total)
  = Some (Booking.mk (new_id e) name phone (Mongoose.castString rn) d total (now e)).
Proof.
  intros Hn Hp Hr Hd Ht. unfold Mongoose.Booking_validate. simpl.
  rewrite Hd, Ht.
  rewrite !bool_decide_eq_true_2; [done|by apply castString_nonempty|done|done].
Qed.

Lemma validate_inv e init doc :
  Mongoose.Booking_validate e init = Some doc →
  PrimFloat.is_nan (BookingInit.days init) = false
  ∧ PrimFloat.is_nan (BookingInit.totalAmount init) = false
  ∧ doc = Booking.mk (new_id e) (BookingInit.guestName init)
            (BookingInit.guestPhone init)
            (Mongoose.castString (BookingInit.roomNumber init))
            (BookingInit.days init) (BookingInit.totalAmount init) (now e).
Proof.
  unfold Mongoose.Booking_validate.
  destruct (PrimFloat.is_nan (BookingInit.days init)); [done|].
  destruct (PrimFloat.is_nan (BookingInit.totalAmount init)); [done|].
  case_match; [|done]. intros [= <-]. done.
Qed.

(** C2 (amended): when guestName and guestPhone are strings that are not
    blank, roomNumber is given and names an existing room with
    available=true, days is given, [parseInt(days)] and its product with
    the room's price are numbers (not NaN), and the generated id is new,
    the handler stores a booking with days = parseInt(days) and
    totalAmount = price * parseInt(days), sets that room's available flag
    to false and returns the booking with status 201. *)
Theorem book_available_room e body st name phone i room :
  BookBody.guestName body = JString name → JS.trim name ≠ "" →
  BookBody.guestPhone body = JString phone → JS.trim phone ≠ "" →
  JS.truthy (BookBody.roomNumber body) = true →
  named_room (BookBody.roomNumber body) st = Some (i, room) →
  Room.available room = true →
  JS.truthy (BookBody.days body) = true →
  PrimFloat.is_nan (JS.parseInt (BookBody.days body)) = false →
  PrimFloat.is_nan
    (JS.mul (Room.price room) (JS.parseInt (BookBody.days body))) = false →
  new_id e ∉ (Booking._id <$> bookings st) →
  let b := Booking.mk (new_id e) (JS.trim name) (JS.trim phone)
             (Room.roomNumber room) (JS.parseInt (BookBody.days body))
             (JS.mul (Room.price room) (JS.parseInt (BookBody.days body)))
             (now e) in
  book e body st =
    (mkResponse 201 "Booking Successful!" (Some b),
     mkStore (alter (Room.set_available false) i (rooms st)) (bookings st ++ [b])).
Proof.
  intros Hn Tn Hp Tp Hr Hroom Ha Hd Hdays Htotal Hid b.
  assert (G : book_fields_given body = true).
  { unfold book_fields_given. rewrite Hn, Hp, Hr, Hd. simpl.
    apply trim_empty in Tn, Tp.
    rewrite !andb_true_r. apply andb_true_iff.
    split; apply negb_true_iff, String.eqb_neq; done. }
  rewrite book_unfold by done. rewrite Hroom, Ha, Hn, Hp.
  rewrite validate_ok by done. simpl.
  assert (Hrn : Mongoose.castString (BookBody.roomNumber body) = Room.roomNumber room).
  { unfold named_room in Hroom. apply list_find_Some in Hroom.
    symmetry. apply Hroom. }
  rewrite Hrn. rewrite bool_decide_eq_false_2 by done. done.
Qed.

Lemma book_available_room_witness :
  let body := BookBody.mk (JString " Ann ") (JString "555") (JString "102")
                (JString "3") in
  let b := Booking.mk 7%N "Ann" "555" "102" 3 4500 10 in
  book (mkEnv 7%N 10) body seeded =
    (mkResponse 201 "Booking Successful!" (Some b),
     mkStore [ Room.mk "101" "Single" 1000 true;
               Room.mk "102" "Double" 1500 false;
               Room.mk "103" "Deluxe" 2000 true ] [b]).
Proof.
  apply (book_available_room (mkEnv 7%N 10)
           (BookBody.mk (JString " Ann ") (JString "555") (JString "102")
              (JString "3"))
           seeded " Ann " "555" 1%nat (Room.mk "102" "Double" 1500 true));
    try reflexivity; try discriminate.
  vm_compute. intros H. inversion H.
Defined.

(** C2 (as stated) fails: with every field present and room 101 available,
    a guest name of spaces, a guest name that is one no-break space, a days
    value without digits and a guest name that is a number each end in
    status 500, with nothing stored. *)
Lemma book_present_fields_refused :
  let blank := BookBody.mk (JString "   ") (JString "555") (JString "101")
                 (JNumber 2) in
  let no_break := BookBody.mk (JString (String "194" (String "160" "")))
                    (JString "555") (JString "101") (JNumber 2) in
  let no_digits := BookBody.mk (JString "Ann") (JString "555") (JString "101")
                     (JString "two") in
  let numeric_name := BookBody.mk (JNumber 5) (JString "555")
                        (JString "101") (JNumber 2) in
  named_room (JString "101") seeded = Some (0%nat, Room.mk "101" "Single" 1000 true)
  ∧ book (mkEnv 1%N 0) blank seeded = (json 500 "Error creating booking", seeded)
  ∧ book (mkEnv 1%N 0) no_break seeded = (json 500 "Error creating booking", seeded)
  ∧ book (mkEnv 1%N 0) no_digits seeded = (json 500 "Error creating booking", seeded)
  ∧ book (mkEnv 1%N 0) numeric_name seeded = (json 500 "Error creating booking", seeded).
Proof. vm_compute. repeat split. Qed.



(** The request the statement of C10 is read on: a name behind a no-break
    space and 2.7 days are stored as "Ann", 2 days and twice the price. *)
Example book_stored_fields_sample :
  booking (book (mkEnv 7%N 10)
             (BookBody.mk (JString (String "194" (String "160" "Ann")))
                (JString "555") (JString "102") (JNumber 2.7)) seeded).1
  = Some (Booking.mk 7%N "Ann" "555" "102" 2 3000 10).
Proof. vm_compute. done. Qed.

(** Days given as the number 10^21 are stored as 1: [parseInt] reads the
    text 1e+21. *)
Example book_exponent_days :
  booking (book (mkEnv 7%N 10)
             (BookBody.mk (JString "Ann") (JString "555") (JString "102")
                (JNumber 1e21)) seeded).1
  = Some (Booking.mk 7%N "Ann" "555" "102" 1 1500 10).
Proof. vm_compute. done. Qed.

(** ** What a request does to the rooms *)

Lemma book_rooms e body st :
  rooms (book e body st).2 = rooms st
  ∨ ∃ j, fst <$> named_room (BookBody.roomNumber body) st = Some j
         ∧ rooms (book e body st).2 = alter (Room.set_available false) j (rooms st).
Proof.
  destruct (book_fields_given body) eqn:G.
  2: { rewrite book_required by done. by left. }
  rewrite book_unfold by done.
  destruct (named_room _ st) as [[i room]|]; [|by left].
  destruct (Room.available room); [|by left].
  destruct (BookBody.guestName body); try by left.
  destruct (BookBody.guestPhone body); try by left.
  destruct (Mongoose.Booking_validate _ _); [|by left].
  case_bool_decide; [by left|]. right. by exists i.
Qed.

Lemma cancel_rooms cast body st :
  rooms (cancel cast body st).2 = rooms st
  ∨ ∃ j, fst <$> named_room (CancelBody.roomNumber body) st = Some j
         ∧ rooms (cancel cast body st).2 = alter (Room.set_available true) j (rooms st).
Proof.
  destruct (cancel_fields_given body) eqn:G.
  2: { rewrite cancel_required by done. by left. }
  rewrite cancel_unfold by done.
  destruct (cast _); [|by left].
  destruct (list_find _ (bookings st)) as [[k b]|]; [|by left].
  simpl. destruct (named_room _ st) as [[j r]|]; [|by left].
  right. by exists j.
Qed.

Lemma handle_rooms cast q st :
  rooms (handle cast q st).2 = rooms st
  ∨ ∃ j b, targeted q st = Some j
           ∧ rooms (handle cast q st).2 = alter (Room.set_available b) j (rooms st).
Proof.
  destruct q as [e body|body]; simpl.
  - destruct (book_rooms e body st) as [?|(j & ? & ?)]; [by left|].
    right. by exists j, false.
  - destruct (cancel_rooms cast body st) as [?|(j & ? & ?)]; [by left|].
    right. by exists j, true.
Qed.

(** C7: a book or cancel request changes no room but the one it is about,
    and of that room nothing but the available flag: every room keeps its
    roomNumber, roomType and price, and no room is added or removed. *)
Theorem handle_rooms_frame cast q st :
  length (rooms (handle cast q st).2) = length (rooms st)
  ∧ ∀ j r, rooms st !! j = Some r →
      ∃ r', rooms (handle cast q st).2 !! j = Some r'
            ∧ Room.roomNumber r' = Room.roomNumber r
            ∧ Room.roomType r' = Room.roomType r
            ∧ Room.price r' = Room.price r
            ∧ (targeted q st ≠ Some j → r' = r).
Proof.
  destruct (handle_rooms cast q st) as [->|(i & b & T & ->)].
  - split; [done|]. intros j r H. by exists r.
  - split; [apply length_alter|]. intros j r H.
    destruct (decide (i = j)) as [->|N].
    + exists (Room.set_available b r).
      rewrite list_lookup_alter_eq, H. simpl. repeat split; done.
    + exists r. rewrite list_lookup_alter_ne by done. done.
Qed.

(** ** Cancelling *)

Lemma named_booking_Some cast body st b :
  named_booking cast body st = Some b ↔
  JS.truthy (CancelBody.id body) = true
  ∧ ∃ o k, cast (CancelBody.id body) = Some o
           ∧ list_find (λ b, Booking._id b = o) (bookings st) = Some (k, b).
Proof.
  unfold named_booking. destruct (JS.truthy (CancelBody.id body)).
  - destruct (cast (CancelBody.id body)) as [o|]; simpl.
    + destruct (list_find _ (bookings st)) as [[k b']|] eqn:F; simpl.
      * split; [intros [= ->]; eauto 6|].
        intros (_ & o' & k' & Ho & Hf). injection Ho as <-.
        rewrite F in Hf. by injection Hf as _ ->.
      * split; [done|]. intros (_ & o' & k' & Ho & Hf). injection Ho as <-.
        by rewrite F in Hf.
    + split; [done|]. intros (_ & o' & k' & ? & _). done.
  - split; [done|]. intros [? _]. done.
Qed.

Lemma delete_unique_id (bs : list Booking.t) k b b' :
  NoDup (Booking._id <$> bs) → bs !! k = Some b → b' ∈ delete k bs →
  Booking._id b' ≠ Booking._id b.
Proof.
  intros ND Hk Hin E.
  apply list_elem_of_lookup in Hin as [j Hj].
  assert (∃ j', j' ≠ k ∧ bs !! j' = Some b') as (j' & Hne & Hj').
  { destruct (decide (j < k)%nat).
    - exists j. rewrite list_lookup_delete_lt in Hj by done. split; [lia|done].
    - exists (S j). rewrite list_lookup_delete_ge in Hj by lia. split; [lia|done]. }
  apply Hne. apply (NoDup_lookup _ _ _ (Booking._id b) ND).
  - rewrite list_lookup_fmap, Hj'. simpl. by rewrite E.
  - by rewrite list_lookup_fmap, Hk.
Qed.




(** C5 (amended): a cancel request that gives an id and a roomNumber, but
    whose id names no stored booking, leaves the store unchanged; the
    status is 404 when the id is the text of an ObjectId, and 500 when it
    is not. *)
Theorem cancel_unknown_booking cast body st :
  JS.truthy (CancelBody.id body) = true →
  JS.truthy (CancelBody.roomNumber body) = true →
  (∀ o, cast (CancelBody.id body) = Some o → o ∉ (Booking._id <$> bookings st)) →
  (cancel cast body st).2 = st
  ∧ status (cancel cast body st).1 =
      match cast (CancelBody.id body) with
      | Some _ => 404%nat
      | None => 500%nat
      end.
Proof.
  intros Hi Hr Hn.
  rewrite cancel_unfold by (unfold cancel_fields_given; by rewrite Hi, Hr).
  destruct (cast (CancelBody.id body)) as [o|]; [|done].
  destruct (list_find _ (bookings st)) as [[k b]|] eqn:F; [|done].
  exfalso. apply (Hn o); [done|].
  apply list_find_Some in F as (Hk & <- & _).
  apply list_elem_of_fmap_2. by eapply list_elem_of_lookup_2.
Qed.

Lemma cancel_unknown_booking_witness :
  let body := CancelBody.mk (JString "00000000000000000000000a") (JString "101") in
  (cancel hexObjectId body seeded).2 = seeded
  ∧ status (cancel hexObjectId body seeded).1 = 404%nat.
Proof.
  apply (cancel_unknown_booking hexObjectId
           (CancelBody.mk (JString "00000000000000000000000a") (JString "101"))
           seeded); try reflexivity.
  intros o _ H. inversion H.
Defined.

(** C5 (as stated) fails on the status: an id that is not the text of an
    ObjectId names no booking, and the request is answered 500, not 404. *)
Lemma cancel_malformed_id :
  let body := CancelBody.mk (JString "abc") (JString "101") in
  JS.truthy (CancelBody.id body) = true
  ∧ JS.truthy (CancelBody.roomNumber body) = true
  ∧ named_booking hexObjectId body seeded = None
  ∧ cancel hexObjectId body seeded = (json 500 "Error cancelling booking", seeded)
  ∧ status (cancel hexObjectId body seeded).1 ≠ 404%nat.
Proof. vm_compute. repeat split; discriminate. Qed.




(** ** Listings *)

#[local] Instance roomNumber_le_trans : Transitive roomNumber_le.
Proof. intros a b c. unfold roomNumber_le. apply transitivity. Qed.

#[local] Instance roomNumber_le_total : Total roomNumber_le.
Proof. intros a b. unfold roomNumber_le. apply total, _. Qed.

#[local] Instance createdAt_ge_trans : Transitive createdAt_ge.
Proof. intros a b c. unfold createdAt_ge. lia. Qed.

#[local] Instance createdAt_ge_total : Total createdAt_ge.
Proof. intros a b. unfold createdAt_ge. lia. Qed.

Lemma StronglySorted_lookup {A} (R : relation A) (l : list A) i j a b :
  StronglySorted R l → (i < j)%nat → l !! i = Some a → l !! j = Some b → R a b.
Proof.
  intros S. revert i j. induction S as [|x l S IH Hx]; intros i j Hij Ha Hb.
  - done.
  - destruct j as [|j]; [lia|]. destruct i as [|i]; simpl in *.
    + injection Ha as <-. rewrite Forall_forall in Hx.
      apply Hx. by eapply list_elem_of_lookup_2.
    + apply (IH i j); [lia|done|done].
Qed.

(** C9: [GET /api/rooms] answers with all the rooms in ascending order of
    roomNumber, and [GET /api/bookings] with all the bookings in descending
    order of createdAt, newest first. *)
Theorem listings_sorted st :
  (getRooms st).1 = 200%nat
  ∧ (getRooms st).2 ≡ₚ rooms st
  ∧ StronglySorted roomNumber_le (getRooms st).2
  ∧ (∀ i j a b, (i < j)%nat →
       (getRooms st).2 !! i = Some a → (getRooms st).2 !! j = Some b →
       String.le (Room.roomNumber a) (Room.roomNumber b))
  ∧ (getBookings st).1 = 200%nat
  ∧ (getBookings st).2 ≡ₚ bookings st
  ∧ StronglySorted createdAt_ge (getBookings st).2
  ∧ (∀ i j a b, (i < j)%nat →
       (getBookings st).2 !! i = Some a → (getBookings st).2 !! j = Some b →
       (Booking.createdAt b ≤ Booking.createdAt a)%Z).
Proof.
  assert (Sr : StronglySorted roomNumber_le (getRooms st).2).
  { unfold getRooms. simpl. apply StronglySorted_merge_sort; apply _. }
  assert (Sb : StronglySorted createdAt_ge (getBookings st).2).
  { unfold getBookings. simpl. apply StronglySorted_merge_sort; apply _. }
  repeat split; try done.
  - apply merge_sort_Permutation.
  - intros i j a b. apply (StronglySorted_lookup roomNumber_le _ i j a b Sr).
  - apply merge_sort_Permutation.
  - intros i j a b. apply (StronglySorted_lookup createdAt_ge _ i j a b Sb).
Qed.

(** ** The occupancy invariant *)

Lemma consistent_occupancy st : consistent st → occupancy st.
Proof.
  intros [_ H] r Hr. rewrite (H r Hr). destruct (Room.available r); done.
Qed.

Lemma consistent_seeded : consistent seeded.
Proof.
  split.
  - apply (bool_decide_unpack _). by vm_compute.
  - intros r Hr. vm_compute in Hr.
    repeat (apply elem_of_cons in Hr as [->|Hr]; [reflexivity|]).
    by apply elem_of_nil in Hr.
Qed.

Lemma roomNumbers_alter b i (rs : list Room.t) :
  Room.roomNumber <$> alter (Room.set_available b) i rs = Room.roomNumber <$> rs.
Proof.
  revert i. induction rs as [|r rs IH]; intros [|i]; try done.
  cbn. f_equal. apply IH.
Qed.

Lemma references_snoc rn bs b :
  references rn (bs ++ [b])
  = (references rn bs + if decide (Booking.roomNumber b = rn) then 1 else 0)%nat.
Proof.
  unfold references. rewrite filter_app, length_app, filter_cons. simpl.
  by case_decide.
Qed.

Lemma references_delete rn (bs : list Booking.t) k b :
  bs !! k = Some b →
  references rn bs
  = (references rn (delete k bs)
     + if decide (Booking.roomNumber b = rn) then 1 else 0)%nat.
Proof.
  unfold references. revert k. induction bs as [|x bs IH]; intros [|k] H;
    simplify_eq/=.
  - rewrite filter_cons. case_decide; simpl; lia.
  - rewrite !filter_cons. specialize (IH k H).
    destruct (decide (Booking.roomNumber x = rn)); simpl; lia.
Qed.

Lemma distinct_rooms (rs : list Room.t) i j r r' :
  NoDup (Room.roomNumber <$> rs) → rs !! i = Some r → rs !! j = Some r' →
  i ≠ j → Room.roomNumber r' ≠ Room.roomNumber r.
Proof.
  intros ND Hi Hj N E. apply N.
  apply (NoDup_lookup _ _ _ (Room.roomNumber r) ND).
  - by rewrite list_lookup_fmap, Hi.
  - rewrite list_lookup_fmap, Hj. simpl. by rewrite E.
Qed.

Lemma consistent_book e body st : consistent st → consistent (book e body st).2.
Proof.
  intros [ND H].
  destruct (book_fields_given body) eqn:G.
  2: { by rewrite book_required. }
  rewrite book_unfold by done.
  destruct (named_room _ st) as [[i room]|] eqn:F; [|done].
  destruct (Room.available room) eqn:Av; [|done].
  destruct (BookBody.guestName body); try done.
  destruct (BookBody.guestPhone body); try done.
  destruct (Mongoose.Booking_validate _ _) as [doc|] eqn:V; [|done].
  case_bool_decide; [done|]. simpl.
  apply validate_inv in V as (_ & _ & Hdoc). simpl in Hdoc.
  apply list_find_Some in F as (Hi & Hrn & _).
  assert (Booking.roomNumber doc = Room.roomNumber room) as Hd
    by (by rewrite Hdoc, Hrn).
  split; simpl.
  - by rewrite roomNumbers_alter.
  - intros r' Hr'. apply list_elem_of_lookup in Hr' as [j Hj].
    rewrite references_snoc, Hd.
    destruct (decide (i = j)) as [->|N].
    + rewrite list_lookup_alter_eq, Hi in Hj. injection Hj as <-. simpl.
      rewrite decide_True by done.
      rewrite (H room) by (by eapply list_elem_of_lookup_2). by rewrite Av.
    + rewrite list_lookup_alter_ne in Hj by done.
      rewrite decide_False by (symmetry; by eapply distinct_rooms).
      rewrite Nat.add_0_r. apply H. by eapply list_elem_of_lookup_2.
Qed.

Lemma consistent_cancel cast body st :
  consistent st → own_room cast (PostCancel body) st →
  consistent (cancel cast body st).2.
Proof.
  intros [ND H] Own.
  destruct (cancel_fields_given body) eqn:G.
  2: { by rewrite cancel_required. }
  rewrite cancel_unfold by done.
  destruct (cast (CancelBody.id body)) as [o|] eqn:C; [|done].
  destruct (list_find _ (bookings st)) as [[k b]|] eqn:F; [|done].
  simpl.
  assert (Mongoose.castString (CancelBody.roomNumber body) = Booking.roomNumber b)
    as Hrn.
  { apply Own. apply named_booking_Some. split; [|eauto].
    unfold cancel_fields_given in G. by apply andb_true_iff in G as [? _]. }
  apply list_find_Some in F as (Hk & _ & _).
  destruct (named_room _ st) as [[j room]|] eqn:R; split; simpl.
  - by rewrite roomNumbers_alter.
  - apply list_find_Some in R as (Hj & Hroom & _). rewrite Hrn in Hroom.
    intros r' Hr'. apply list_elem_of_lookup in Hr' as [j' Hj'].
    destruct (decide (j = j')) as [->|N].
    + rewrite list_lookup_alter_eq, Hj in Hj'. injection Hj' as <-. simpl.
      pose proof (H room (list_elem_of_lookup_2 _ _ _ Hj)) as Href.
      rewrite (references_delete _ _ k b Hk), decide_True in Href by done.
      destruct (Room.available room); lia.
    + rewrite list_lookup_alter_ne in Hj' by done.
      pose proof (H r' (list_elem_of_lookup_2 _ _ _ Hj')) as Href.
      rewrite (references_delete _ _ k b Hk), decide_False in Href.
      * by rewrite Nat.add_0_r in Href.
      * rewrite <- Hroom. symmetry. by eapply distinct_rooms.
  - done.
  - apply list_find_None in R. rewrite Forall_forall in R.
    intros r' Hr'. pose proof (H r' Hr') as Href.
    rewrite (references_delete _ _ k b Hk), decide_False in Href.
    + by rewrite Nat.add_0_r in Href.
    + rewrite <- Hrn. intros E. by apply (R r' Hr').
Qed.

(** C1 (amended): in every state reached from the seeded rooms by book
    requests and by cancel requests that give the roomNumber of the booking
    they name, a room has available=false if and only if exactly one
    booking record references its roomNumber. *)
Theorem occupancy_invariant cast st : reachable_own cast st → occupancy st.
Proof.
  intros R. apply consistent_occupancy.
  induction R as [|q st R IH Own].
  - apply consistent_seeded.
  - destruct q as [e body|body]; simpl.
    + by apply consistent_book.
    + by apply consistent_cancel.
Qed.

Lemma occupancy_invariant_witness :
  occupancy
    (handle hexObjectId
       (PostBook (mkEnv 1%N 0)
          (BookBody.mk (JString "Ann") (JString "555") (JString "101")
             (JNumber 2)))
       seeded).2.
Proof.
  apply (occupancy_invariant hexObjectId).
  apply reachable_own_handle; [apply reachable_own_seeded | exact I].
Defined.

Lemma reachable_serve cast qs st :
  reachable cast st → reachable cast (serve cast qs st).
Proof.
  revert st. induction qs as [|q qs IH]; intros st R; [done|].
  apply IH. by apply reachable_handle.
Qed.

(** C1 (as stated) fails: after room 101 is booked and the booking is
    cancelled by a request that gives room 102, no booking is left and
    room 101 is still not available. *)
Lemma occupancy_broken_by_cancel :
  let st := serve hexObjectId
              [ PostBook (mkEnv 1%N 0)
                  (BookBody.mk (JString "Ann") (JString "555") (JString "101")
                     (JNumber 2));
                PostCancel
                  (CancelBody.mk (JString "000000000000000000000001")
                     (JString "102")) ]
              seeded in
  reachable hexObjectId st
  ∧ st = mkStore [ Room.mk "101" "Single" 1000 false;
                   Room.mk "102" "Double" 1500 true;
                   Room.mk "103" "Deluxe" 2000 true ] []
  ∧ ¬ occupancy st.
Proof.
  split; [|split].
  - apply reachable_serve, reachable_seeded.
  - by vm_compute.
  - intros H. specialize (H (Room.mk "101" "Single" 1000 false)).
    assert (references "101" [] = 1%nat) as E.
    { apply H; [|reflexivity]. vm_compute. apply list_elem_of_here. }
    discriminate E.
Qed.

(** ** Booking ids *)

Lemma book_bookings e body st :
  bookings (book e body st).2 = bookings st
  ∨ ∃ doc, (Booking._id doc ∉ Booking._id <$> bookings st)
           ∧ bookings (book e body st).2 = bookings st ++ [doc].
Proof.
  destruct (book_fields_given body) eqn:G.
  2: { rewrite book_required by done. by left. }
  rewrite book_unfold by done.
  destruct (named_room _ st) as [[i room]|]; [|by left].
  destruct (Room.available room); [|by left].
  destruct (BookBody.guestName body); try by left.
  destruct (BookBody.guestPhone body); try by left.
  destruct (Mongoose.Booking_validate _ _) as [doc|]; [|by left].
  case_bool_decide; [by left|]. right. by exists doc.
Qed.

Lemma cancel_bookings cast body st :
  bookings (cancel cast body st).2 = bookings st
  ∨ ∃ k, bookings (cancel cast body st).2 = delete k (bookings st).
Proof.
  destruct (cancel_fields_given body) eqn:G.
  2: { rewrite cancel_required by done. by left. }
  rewrite cancel_unfold by done.
  destruct (cast _); [|by left].
  destruct (list_find _ (bookings st)) as [[k b]|]; [|by left].
  right. by exists k.
Qed.

(** The database keeps booking ids unique. *)
Lemma reachable_ids_NoDup cast st :
  reachable cast st → NoDup (Booking._id <$> bookings st).
Proof.
  induction 1 as [|q st R IH]; [apply NoDup_nil_2|].
  destruct q as [e body|body]; simpl.
  - destruct (book_bookings e body st) as [->|(doc & Hn & ->)]; [done|].
    rewrite fmap_app. apply NoDup_app. split; [done|]. split.
    + intros x Hx Hin. apply list_elem_of_singleton in Hin. by subst.
    + apply NoDup_singleton.
  - destruct (cancel_bookings cast body st) as [->|(k & ->)]; [done|].
    rewrite list_fmap_delete. eapply sublist_NoDup; [done|apply sublist_delete].
Qed.

Lemma unique_id (bs : list Booking.t) b b' :
  NoDup (Booking._id <$> bs) → b ∈ bs → b' ∈ bs →
  Booking._id b' = Booking._id b → b' = b.
Proof.
  intros ND [i Hi]%list_elem_of_lookup [j Hj]%list_elem_of_lookup E.
  assert (i = j) as ->; [|congruence].
  apply (NoDup_lookup _ _ _ (Booking._id b) ND).
  - by rewrite list_lookup_fmap, Hi.
  - rewrite list_lookup_fmap, Hj. simpl. by rewrite E.
Qed.

(** The cancel button of the bookings table sends the room of its row. *)
Lemma cancelBooking_own_room cast text st b :
  cast (JString (text (Booking._id b))) = Some (Booking._id b) →
  NoDup (Booking._id <$> bookings st) → b ∈ bookings st →
  own_room cast (PostCancel (App.cancelBooking text b)) st.
Proof.
  intros Hc ND Hb b' Hb'. apply named_booking_Some in Hb' as (_ & o & k & Ho & F).
  simpl in Ho. rewrite Hc in Ho. injection Ho as <-.
  apply list_find_Some in F as (Hk & Hid & _).
  apply list_elem_of_lookup_2 in Hk.
  by rewrite (unique_id _ b b' ND Hb Hk Hid).
Qed.


(** * Further properties of the handlers *)

(** ** Every outcome of a request *)

Lemma trimStart_fixed t : starts_white t = false → JS.trimStart t = t.
Proof.
  unfold starts_white. rewrite trimStart_unfold.
  by destruct (JS.white_prefix t).
Qed.

Lemma append_empty (s : string) : s +:+ "" = s.
Proof. induction s as [|c s IH]; [done|]. by rewrite append_cons, IH. Qed.

Lemma ends_white_app x s : ends_white s = true → ends_white (x +:+ s) = true.
Proof.
  intros H. induction x as [|c x IH]; [done|].
  rewrite append_cons. cbn [ends_white]. rewrite IH.
  by destruct (JS.white_prefix _) as [[|]|].
Qed.

Lemma all_white_ends t : JS.all_white t = true → t ≠ "" → ends_white t = true.
Proof.
  remember (String.length t) as n eqn:Hn. revert t Hn.
  induction n as [n IH] using lt_wf_ind. intros t Hn.
  rewrite all_white_unfold.
  destruct (JS.white_prefix t) as [r|] eqn:W; [|by destruct t].
  intros Hr _. destruct r as [|c r].
  - destruct t; [done|]. cbn [ends_white]. by rewrite W.
  - pose proof (white_prefix_length _ _ W) as Hlt.
    destruct (white_prefix_split _ _ W) as (w & -> & _).
    apply ends_white_app.
    apply (IH (String.length (String c r))); [lia|done|done|done].
Qed.

Lemma trimEnd_fixed t : ends_white t = false → JS.trimEnd t = t.
Proof.
  induction t as [|c t IH]; [done|]. intros H.
  cbn [JS.trimEnd]. destruct (JS.all_white (String c t)) eqn:A.
  - by rewrite all_white_ends in H.
  - rewrite IH; [done|]. cbn [ends_white] in H.
    by destruct (JS.white_prefix (String c t)) as [[|]|].
Qed.

Lemma trim_fixed s : JS.trim (JS.trim s) = JS.trim s.
Proof.
  destruct (trim_spec s) as (_ & Hs & He). unfold JS.trim at 1.
  rewrite (trimStart_fixed _ Hs). by apply trimEnd_fixed.
Qed.

Lemma validate_names e init doc :
  Mongoose.Booking_validate e init = Some doc →
  BookingInit.guestName init ≠ "" ∧ BookingInit.guestPhone init ≠ "".
Proof.
  unfold Mongoose.Booking_validate.
  destruct (PrimFloat.is_nan (BookingInit.days init)); [done|].
  destruct (PrimFloat.is_nan (BookingInit.totalAmount init)); [done|].
  destruct (bool_decide (BookingInit.guestName init ≠ "")) eqn:N; [|done].
  destruct (bool_decide (BookingInit.guestPhone init ≠ "")) eqn:P; [|done].
  intros _. split; by eapply bool_decide_eq_true_1.
Qed.

Ltac request_failed :=
  left; do 2 eexists; split; [|reflexivity]; auto.

Lemma book_outcome e body st :
  (∃ s msg, (s = 400 ∨ s = 404 ∨ s = 500)%nat ∧ book e body st = (json s msg, st))
  ∨ ∃ name phone i room,
      BookBody.guestName body = JString name
      ∧ BookBody.guestPhone body = JString phone
      ∧ JS.trim name ≠ "" ∧ JS.trim phone ≠ ""
      ∧ book_fields_given body = true
      ∧ named_room (BookBody.roomNumber body) st = Some (i, room)
      ∧ Room.available room = true
      ∧ PrimFloat.is_nan (JS.parseInt (BookBody.days body)) = false
      ∧ (new_id e ∉ Booking._id <$> bookings st)
      ∧ book e body st =
          (mkResponse 201 "Booking Successful!"
             (Some (new_booking e name phone room (JS.parseInt (BookBody.days body)))),
           mkStore (alter (Room.set_available false) i (rooms st))
             (bookings st
              ++ [new_booking e name phone room (JS.parseInt (BookBody.days body))])).
Proof.
  destruct (book_fields_given body) eqn:G.
  2: { rewrite book_required by done. request_failed. }
  rewrite book_unfold by done.
  destruct (named_room _ st) as [[i room]|] eqn:F; [|request_failed].
  destruct (Room.available room) eqn:Av; [|request_failed].
  destruct (BookBody.guestName body) as [| | | |name] eqn:Hn; try (request_failed).
  destruct (BookBody.guestPhone body) as [| | | |phone] eqn:Hp; try (request_failed).
  destruct (Mongoose.Booking_validate _ _) as [doc|] eqn:V; [|request_failed].
  case_bool_decide as Hid; [request_failed|].
  right. pose proof (validate_names _ _ _ V) as [Tn Tp].
  apply validate_inv in V as (Hd & Ht & Hdoc). simpl in *.
  assert (Mongoose.castString (BookBody.roomNumber body) = Room.roomNumber room)
    as Hrn by (apply list_find_Some in F; symmetry; apply F).
  exists name, phone, i, room.
  assert (doc = new_booking e name phone room (JS.parseInt (BookBody.days body)))
    as Hnew.
  { rewrite Hdoc. unfold new_booking. by rewrite Hrn. }
  rewrite <- Hnew.
  assert (Booking._id doc = new_id e) as Hi by (by rewrite Hdoc).
  rewrite Hi in Hid. repeat split; done.
Qed.

Lemma cancel_outcome cast body st :
  (∃ s msg, (s = 400 ∨ s = 404 ∨ s = 500)%nat ∧ cancel cast body st = (json s msg, st))
  ∨ ∃ o k b,
      cancel_fields_given body = true
      ∧ cast (CancelBody.id body) = Some o
      ∧ list_find (λ b, Booking._id b = o) (bookings st) = Some (k, b)
      ∧ cancel cast body st =
          (json 200 "Booking Cancelled Successfully!",
           mkStore
             match named_room (CancelBody.roomNumber body) st with
             | None => rooms st
             | Some (j, _) => alter (Room.set_available true) j (rooms st)
             end
             (delete k (bookings st))).
Proof.
  destruct (cancel_fields_given body) eqn:G.
  2: { rewrite cancel_required by done. request_failed. }
  rewrite cancel_unfold by done.
  destruct (cast (CancelBody.id body)) as [o|] eqn:C; [|request_failed].
  destruct (list_find _ (bookings st)) as [[k b]|] eqn:F; [|request_failed].
  right. by exists o, k, b.
Qed.

(** X1: a book request either succeeds as a whole (status 201: the booking
    with the generated id and time stamp is appended, and the named room is
    marked unavailable) or fails with status 400, 404 or 500, without a
    booking in the answer and with the store exactly as it was. *)
Theorem book_all_or_nothing e body st :
  (status (book e body st).1 = 201%nat
   ∧ ∃ b i room,
       booking (book e body st).1 = Some b
       ∧ Booking._id b = new_id e ∧ Booking.createdAt b = now e
       ∧ named_room (BookBody.roomNumber body) st = Some (i, room)
       ∧ Booking.roomNumber b = Room.roomNumber room
       ∧ (book e body st).2 =
           mkStore (alter (Room.set_available false) i (rooms st))
             (bookings st ++ [b]))
  ∨ ((status (book e body st).1 = 400%nat ∨ status (book e body st).1 = 404%nat
      ∨ status (book e body st).1 = 500%nat)
     ∧ booking (book e body st).1 = None
     ∧ (book e body st).2 = st).
Proof.
  destruct (book_outcome e body st)
    as [(s & msg & Hs & ->)|(name & phone & i & room & H)].
  - right. simpl. done.
  - left. destruct H as (_ & _ & _ & _ & _ & F & _ & _ & _ & ->). simpl.
    split; [done|].
    by exists (new_booking e name phone room (JS.parseInt (BookBody.days body))),
         i, room.
Qed.

(** X2: a cancel request either succeeds as a whole (status 200: the one
    booking with the given id is removed) or fails with status 400, 404 or
    500 and leaves the store exactly as it was. *)
Theorem cancel_all_or_nothing cast body st :
  (status (cancel cast body st).1 = 200%nat
   ∧ ∃ k b,
       bookings st !! k = Some b
       ∧ cast (CancelBody.id body) = Some (Booking._id b)
       ∧ bookings (cancel cast body st).2 = delete k (bookings st)
       ∧ S (length (bookings (cancel cast body st).2)) = length (bookings st))
  ∨ ((status (cancel cast body st).1 = 400%nat
      ∨ status (cancel cast body st).1 = 404%nat
      ∨ status (cancel cast body st).1 = 500%nat)
     ∧ (cancel cast body st).2 = st).
Proof.
  destruct (cancel_outcome cast body st) as [(s & msg & Hs & ->)|(o & k & b & H)].
  - right. simpl. done.
  - left. destruct H as (_ & C & F & ->). simpl.
    apply list_find_Some in F as (Hk & <- & _).
    split; [done|]. exists k, b. repeat split; try done.
    rewrite length_delete by eauto.
    apply lookup_lt_Some in Hk. lia.
Qed.

(** ** Requests in sequence *)

Lemma list_find_cons {A} (P : A → Prop) `{∀ x, Decision (P x)} x (l : list A) :
  list_find P (x :: l)
  = if decide (P x) then Some (0%nat, x) else prod_map S id <$> list_find P l.
Proof. reflexivity. Qed.

Lemma list_find_alter_stable {A} (P : A → Prop) `{∀ x, Decision (P x)}
    (f : A → A) i (l : list A) :
  (∀ x, P (f x) ↔ P x) →
  list_find P (alter f i l)
  = (λ jx, (jx.1, if decide (jx.1 = i) then f jx.2 else jx.2)) <$> list_find P l.
Proof.
  intros Hf. revert i. induction l as [|x l IH]; intros i; [done|].
  destruct i as [|i].
  - change (alter f 0%nat (x :: l)) with (f x :: l). rewrite !list_find_cons.
    destruct (decide (P (f x))) as [Hx|Hx], (decide (P x)) as [Hx'|Hx'].
    + done.
    + exfalso. apply Hx'. by apply Hf.
    + exfalso. apply Hx. by apply Hf.
    + destruct (list_find P l) as [[j y]|]; done.
  - change (alter f (S i) (x :: l)) with (x :: alter f i l).
    rewrite !list_find_cons, IH.
    destruct (decide (P x)); [done|].
    destruct (list_find P l) as [[j y]|]; simpl; [|done].
    destruct (decide (j = i)), (decide (S j = S i)); try done; lia.
Qed.

Lemma named_room_alter v b i (rs : list Room.t) bs :
  named_room v (mkStore (alter (Room.set_available b) i rs) bs)
  = (λ jr, (jr.1, if decide (jr.1 = i) then Room.set_available b jr.2 else jr.2))
      <$> list_find (λ r, Room.roomNumber r = Mongoose.castString v) rs.
Proof. unfold named_room. simpl. by apply list_find_alter_stable. Qed.

(** X3: once a room has been booked, every further book request for the
    same room number is answered with status 400 and changes nothing,
    whatever its other fields are. *)
Theorem book_twice_refused e1 e2 body1 body2 st :
  status (book e1 body1 st).1 = 201%nat →
  Mongoose.castString (BookBody.roomNumber body2)
  = Mongoose.castString (BookBody.roomNumber body1) →
  status (book e2 body2 (book e1 body1 st).2).1 = 400%nat
  ∧ (book e2 body2 (book e1 body1 st).2).2 = (book e1 body1 st).2.
Proof.
  intros H201 Hrn.
  destruct (book_outcome e1 body1 st)
    as [(s & msg & Hs & E)|(name & phone & i & room & H)].
  { rewrite E in H201. simpl in H201. lia. }
  destruct H as (_ & _ & _ & _ & _ & F & _ & _ & _ & ->). simpl.
  destruct (book_fields_given body2) eqn:G.
  2: { by rewrite book_required. }
  rewrite book_unfold by done.
  rewrite named_room_alter, Hrn. unfold named_room in F. rewrite F. simpl.
  rewrite decide_True by done. done.
Qed.

Lemma book_twice_refused_witness :
  let body := BookBody.mk (JString "Ann") (JString "555") (JString "101")
                (JNumber 2) in
  let again := BookBody.mk (JString "Bob") (JString "777") (JNumber 101)
                 (JNumber 1) in
  status (book (mkEnv 2%N 5) again (book (mkEnv 1%N 0) body seeded).2).1 = 400%nat
  ∧ (book (mkEnv 2%N 5) again (book (mkEnv 1%N 0) body seeded).2).2
    = (book (mkEnv 1%N 0) body seeded).2.
Proof.
  apply (book_twice_refused (mkEnv 1%N 0) (mkEnv 2%N 5)
           (BookBody.mk (JString "Ann") (JString "555") (JString "101")
              (JNumber 2))
           (BookBody.mk (JString "Bob") (JString "777") (JNumber 101)
              (JNumber 1)) seeded); reflexivity.
Defined.

Lemma list_find_snoc_fresh (bs : list Booking.t) b :
  Booking._id b ∉ (Booking._id <$> bs) →
  list_find (λ x, Booking._id x = Booking._id b) (bs ++ [b]) = Some (length bs, b).
Proof.
  intros Hn. apply list_find_Some. split; [|split; [done|]].
  - by rewrite lookup_app_r, Nat.sub_diag.
  - intros j y Hj Hlt E. apply Hn. rewrite <- E.
    rewrite lookup_app_l in Hj by done.
    apply list_elem_of_fmap_2. by eapply list_elem_of_lookup_2.
Qed.

Lemma alter_available_back (rs : list Room.t) i room :
  rs !! i = Some room → Room.available room = true →
  alter (Room.set_available true) i (alter (Room.set_available false) i rs) = rs.
Proof.
  intros Hi Av. apply list_eq. intros j.
  destruct (decide (i = j)) as [->|N].
  - rewrite !list_lookup_alter_eq, Hi. simpl.
    destruct room as [n t p a]. simpl in Av. by subst.
  - by rewrite !list_lookup_alter_ne.
Qed.

(** X4: booking a room and then cancelling that booking, with its id and
    the room number of the booking, gives the store back as it was before
    the booking. *)
Theorem book_then_cancel cast e body st id roomNumber :
  status (book e body st).1 = 201%nat →
  JS.truthy id = true → cast id = Some (new_id e) →
  JS.truthy roomNumber = true →
  Mongoose.castString roomNumber = Mongoose.castString (BookBody.roomNumber body) →
  cancel cast (CancelBody.mk id roomNumber) (book e body st).2
  = (json 200 "Booking Cancelled Successfully!", st).
Proof.
  intros H201 Hi Hc Hr Hrn.
  destruct (book_outcome e body st)
    as [(s & msg & Hs & E)|(name & phone & i & room & H)].
  { rewrite E in H201. simpl in H201. lia. }
  destruct H as (_ & _ & _ & _ & _ & F & Av & _ & Hid & ->). simpl.
  rewrite cancel_unfold by (unfold cancel_fields_given; simpl; by rewrite Hi, Hr).
  simpl. rewrite Hc.
  pose proof (list_find_snoc_fresh (bookings st)
                (new_booking e name phone room (JS.parseInt (BookBody.days body)))
                Hid) as L.
  simpl in L. rewrite L. clear L.
  rewrite named_room_alter, Hrn. unfold named_room in F. rewrite F. simpl.
  apply list_find_Some in F as (Hroom & _).
  rewrite (alter_available_back _ _ _ Hroom Av).
  replace (delete (length (bookings st)) _) with (bookings st).
  - by destruct st.
  - by rewrite (delete_middle (bookings st) []), app_nil_r.
Qed.

Lemma book_then_cancel_witness :
  let body := BookBody.mk (JString "Ann") (JString "555") (JString "101")
                (JNumber 2) in
  cancel hexObjectId
    (CancelBody.mk (JString "000000000000000000000001") (JString "101"))
    (book (mkEnv 1%N 0) body seeded).2
  = (json 200 "Booking Cancelled Successfully!", seeded).
Proof.
  apply (book_then_cancel hexObjectId (mkEnv 1%N 0)
           (BookBody.mk (JString "Ann") (JString "555") (JString "101")
              (JNumber 2))
           seeded (JString "000000000000000000000001") (JString "101"));
    reflexivity.
Defined.

(** X5: when booking ids are unique, repeating a cancel request that has
    succeeded is answered 404 and changes nothing. *)
Theorem cancel_twice cast body st :
  NoDup (Booking._id <$> bookings st) →
  status (cancel cast body st).1 = 200%nat →
  cancel cast body (cancel cast body st).2
  = (json 404 "Booking not found", (cancel cast body st).2).
Proof.
  intros ND H200.
  destruct (cancel_outcome cast body st) as [(s & msg & Hs & E)|(o & k & b & H)].
  { rewrite E in H200. simpl in H200. lia. }
  destruct H as (G & C & F & ->). simpl.
  rewrite cancel_unfold by done. simpl. rewrite C.
  apply list_find_Some in F as (Hk & Hid & _).
  assert (list_find (λ b, Booking._id b = o) (delete k (bookings st)) = None) as ->.
  { apply list_find_None, Forall_forall. intros b' Hb'. rewrite <- Hid.
    by eapply delete_unique_id. }
  done.
Qed.

Lemma cancel_twice_witness :
  let st := mkStore [ Room.mk "101" "Single" 1000 false ]
              [ Booking.mk 1%N "Ann" "555" "101" 2 2000 0 ] in
  let body := CancelBody.mk (JString "000000000000000000000001") (JString "101") in
  cancel hexObjectId body (cancel hexObjectId body st).2
  = (json 404 "Booking not found", (cancel hexObjectId body st).2).
Proof.
  apply (cancel_twice hexObjectId
           (CancelBody.mk (JString "000000000000000000000001") (JString "101"))
           (mkStore [ Room.mk "101" "Single" 1000 false ]
              [ Booking.mk 1%N "Ann" "555" "101" 2 2000 0 ])).
  - simpl. apply NoDup_singleton.
  - reflexivity.
Defined.

(** ** What every run keeps *)

Lemma room_record_alter b i (rs : list Room.t) :
  room_record <$> alter (Room.set_available b) i rs = room_record <$> rs.
Proof.
  revert i. induction rs as [|r rs IH]; intros [|i]; try done.
  cbn. f_equal. apply IH.
Qed.

Lemma booking_sound_transfer st st' b :
  room_record <$> rooms st' = room_record <$> rooms st →
  booking_sound st b → booking_sound st' b.
Proof.
  intros E [(r & Hr & Hn & Ht) Hrest]. split; [|done].
  apply list_elem_of_lookup in Hr as [j Hj].
  assert ((room_record <$> rooms st') !! j = Some (room_record r)) as H'.
  { by rewrite E, list_lookup_fmap, Hj. }
  rewrite list_lookup_fmap in H'.
  destruct (rooms st' !! j) as [r'|] eqn:Hj'; [|done].
  simpl in H'. injection H' as H1 H2 H3.
  exists r'. split; [by eapply list_elem_of_lookup_2|]. by rewrite H1, H3.
Qed.

Lemma wellformed_seeded : wellformed seeded.
Proof.
  split; [done|]. split; [apply NoDup_nil_2|].
  intros b Hb. by apply elem_of_nil in Hb.
Qed.

Lemma wellformed_book e body st : wellformed st → wellformed (book e body st).2.
Proof.
  intros (Hr & ND & Hs).
  destruct (book_outcome e body st)
    as [(s & msg & _ & ->)|(name & phone & i & room & H)]; [done|].
  destruct H as (_ & _ & Tn & Tp & _ & F & _ & _ & Hid & ->). simpl.
  apply list_find_Some in F as (Hi & _).
  assert (room_record <$> alter (Room.set_available false) i (rooms st)
          = room_record <$> rooms st) as Hrec by apply room_record_alter.
  split; [|split]; simpl.
  - by rewrite Hrec.
  - rewrite fmap_app. apply NoDup_app. split; [done|]. split.
    + intros x Hx Hin. apply list_elem_of_singleton in Hin. by subst.
    + apply NoDup_singleton.
  - intros b Hb. apply elem_of_app in Hb as [Hb|Hb].
    + eapply booking_sound_transfer; [|by apply Hs]. done.
    + apply list_elem_of_singleton in Hb as ->.
      unfold booking_sound, new_booking. simpl.
      split; [|by rewrite !trim_fixed].
      exists (Room.set_available false room). split; [|done].
      eapply list_elem_of_lookup_2. by rewrite list_lookup_alter_eq, Hi.
Qed.

Lemma wellformed_cancel cast body st :
  wellformed st → wellformed (cancel cast body st).2.
Proof.
  intros (Hr & ND & Hs).
  destruct (cancel_outcome cast body st)
    as [(s & msg & _ & ->)|(o & k & b & H)]; [done|].
  destruct H as (_ & _ & _ & ->). simpl.
  assert (room_record <$>
            match named_room (CancelBody.roomNumber body) st with
            | Some (j, _) => alter (Room.set_available true) j (rooms st)
            | None => rooms st
            end = room_record <$> rooms st) as Hrec.
  { destruct (named_room _ st) as [[j r]|]; [apply room_record_alter|done]. }
  split; [|split]; simpl.
  - by rewrite Hrec.
  - rewrite list_fmap_delete. eapply sublist_NoDup; [done|apply sublist_delete].
  - intros b' Hb'. apply list_elem_of_delete_inv in Hb'.
    eapply booking_sound_transfer; [|by apply Hs]. done.
Qed.

Lemma reachable_wellformed cast st : reachable cast st → wellformed st.
Proof.
  induction 1 as [|q st R IH]; [apply wellformed_seeded|].
  destruct q as [e body|body]; simpl.
  - by apply wellformed_book.
  - by apply wellformed_cancel.
Qed.

Lemma rooms_of_record (rs : list Room.t) :
  room_record <$> rs = room_record <$> sampleRooms →
  ∃ a1 a2 a3,
    rs = [ Room.mk "101" "Single" 1000 a1;
           Room.mk "102" "Double" 1500 a2;
           Room.mk "103" "Deluxe" 2000 a3 ].
Proof.
  destruct rs as [|[n1 t1 p1 a1] [|[n2 t2 p2 a2] [|[n3 t3 p3 a3] [|? ?]]]];
    try done.
  intros [= -> -> -> -> -> -> -> -> ->]. by exists a1, a2, a3.
Qed.

(** X6: whatever requests have been served since the rooms were seeded,
    the store holds the three seeded rooms, in their order and with their
    numbers, types and prices; only the availability flags can differ. *)
Theorem reachable_rooms_fixed cast st :
  reachable cast st →
  ∃ a1 a2 a3,
    rooms st = [ Room.mk "101" "Single" 1000 a1;
                 Room.mk "102" "Double" 1500 a2;
                 Room.mk "103" "Deluxe" 2000 a3 ].
Proof.
  intros R. apply rooms_of_record. by apply (reachable_wellformed cast).
Qed.

Lemma reachable_rooms_fixed_witness :
  ∃ a1 a2 a3,
    rooms (handle hexObjectId
             (PostBook (mkEnv 1%N 0)
                (BookBody.mk (JString "Ann") (JString "555") (JString "102")
                   (JNumber 2))) seeded).2
    = [ Room.mk "101" "Single" 1000 a1;
        Room.mk "102" "Double" 1500 a2;
        Room.mk "103" "Deluxe" 2000 a3 ].
Proof.
  apply (reachable_rooms_fixed hexObjectId).
  apply reachable_handle, reachable_seeded.
Defined.

(** X7: whatever requests have been served, every stored booking
    references a room of the store, its totalAmount is that room's price
    times its days, and its guestName and guestPhone are not empty and have
    no leading or trailing white space. *)
Theorem reachable_bookings_sound cast st b :
  reachable cast st → b ∈ bookings st →
  (∃ r, r ∈ rooms st ∧ Room.roomNumber r = Booking.roomNumber b
        ∧ Booking.totalAmount b = JS.mul (Room.price r) (Booking.days b))
  ∧ Booking.guestName b ≠ "" ∧ Booking.guestPhone b ≠ ""
  ∧ starts_white (Booking.guestName b) = false
  ∧ ends_white (Booking.guestName b) = false
  ∧ starts_white (Booking.guestPhone b) = false
  ∧ ends_white (Booking.guestPhone b) = false.
Proof.
  intros R Hb.
  destruct (reachable_wellformed cast st R) as (_ & _ & Hs).
  destruct (Hs b Hb) as (Hr & Hn & Hp & Tn & Tp).
  destruct (trim_spec (Booking.guestName b)) as (_ & Sn & En).
  destruct (trim_spec (Booking.guestPhone b)) as (_ & Sp & Ep).
  rewrite Tn in Sn, En. rewrite Tp in Sp, Ep. done.
Qed.

Lemma reachable_bookings_sound_witness :
  let st := (handle hexObjectId
               (PostBook (mkEnv 1%N 0)
                  (BookBody.mk (JString " Ann ") (JString "555") (JString "102")
                     (JString "3 nights"))) seeded).2 in
  let b := Booking.mk 1%N "Ann" "555" "102" 3 4500 0 in
  (∃ r, r ∈ rooms st ∧ Room.roomNumber r = Booking.roomNumber b
        ∧ Booking.totalAmount b = JS.mul (Room.price r) (Booking.days b))
  ∧ Booking.guestName b ≠ "" ∧ Booking.guestPhone b ≠ ""
  ∧ starts_white (Booking.guestName b) = false
  ∧ ends_white (Booking.guestName b) = false
  ∧ starts_white (Booking.guestPhone b) = false
  ∧ ends_white (Booking.guestPhone b) = false.
Proof.
  apply (reachable_bookings_sound hexObjectId).
  - apply reachable_handle, reachable_seeded.
  - vm_compute. apply list_elem_of_here.
Defined.

(** X8: whatever requests have been served, the rows of the bookings
    listing carry pairwise different ids. *)
Theorem reachable_listing_ids_unique cast st :
  reachable cast st → NoDup (Booking._id <$> (getBookings st).2).
Proof.
  intros R. destruct (reachable_wellformed cast st R) as (_ & ND & _).
  unfold getBookings. simpl. by rewrite merge_sort_Permutation.
Qed.

Lemma reachable_listing_ids_unique_witness :
  NoDup (Booking._id <$>
           (getBookings
              (serve hexObjectId
                 [ PostBook (mkEnv 1%N 0)
                     (BookBody.mk (JString "Ann") (JString "555") (JString "101")
                        (JNumber 2));
                   PostBook (mkEnv 2%N 5)
                     (BookBody.mk (JString "Bob") (JString "777") (JString "102")
                        (JNumber 1)) ]
                 seeded)).2).
Proof.
  apply (reachable_listing_ids_unique hexObjectId).
  apply reachable_serve, reachable_seeded.
Defined.

(** X9: seeding is safe to repeat: running [initializeData] again changes
    nothing, it never touches the bookings, it leaves a store that has
    rooms as it is, and it fills an empty rooms collection with the three
    sample rooms. *)
Theorem initializeData_restart st :
  initializeData (initializeData st) = initializeData st
  ∧ bookings (initializeData st) = bookings st
  ∧ (rooms st ≠ [] → initializeData st = st)
  ∧ (rooms st = [] → rooms (initializeData st) = sampleRooms).
Proof.
  unfold initializeData. destruct st as [rs bs]. simpl.
  destruct rs as [|r rs]; simpl; repeat split; done.
Qed.

(** X10: a booking made at a time later than the creation of every stored
    booking is the first row of the bookings listing. *)
Theorem newest_booking_first e body st :
  status (book e body st).1 = 201%nat →
  (∀ b, b ∈ bookings st → (Booking.createdAt b < now e)%Z) →
  head (getBookings (book e body st).2).2 = booking (book e body st).1.
Proof.
  intros H201 Hold.
  destruct (book_outcome e body st)
    as [(s & msg & Hs & E)|(name & phone & i & room & H)].
  { rewrite E in H201. simpl in H201. lia. }
  destruct H as (_ & _ & _ & _ & _ & _ & _ & _ & _ & ->). simpl.
  set (b := new_booking e name phone room (JS.parseInt (BookBody.days body))).
  assert (StronglySorted createdAt_ge (merge_sort createdAt_ge (bookings st ++ [b])))
    as S by (apply StronglySorted_merge_sort; apply _).
  pose proof (merge_sort_Permutation createdAt_ge (bookings st ++ [b])) as Pm.
  destruct (merge_sort createdAt_ge (bookings st ++ [b])) as [|h t] eqn:L.
  { apply Permutation_nil_l in Pm. by destruct (bookings st). }
  simpl. f_equal.
  assert (h ∈ bookings st ++ [b]) as Hh by (rewrite <- Pm; apply list_elem_of_here).
  apply elem_of_app in Hh as [Hh|Hh]; [|by apply list_elem_of_singleton in Hh].
  exfalso. specialize (Hold h Hh).
  assert (b ∈ h :: t) as Hb.
  { rewrite Pm. apply elem_of_app. right. apply list_elem_of_here. }
  apply elem_of_cons in Hb as [Hb|Hb].
  - rewrite <- Hb in Hold. simpl in Hold. lia.
  - apply StronglySorted_inv in S as [_ Hall]. rewrite Forall_forall in Hall.
    specialize (Hall b Hb). unfold createdAt_ge in Hall. simpl in Hall. lia.
Qed.

Lemma newest_booking_first_witness :
  let st := (book (mkEnv 1%N 0)
               (BookBody.mk (JString "Ann") (JString "555") (JString "101")
                  (JNumber 2)) seeded).2 in
  let body := BookBody.mk (JString "Bob") (JString "777") (JString "102")
                (JNumber 1) in
  head (getBookings (book (mkEnv 2%N 5) body st).2).2
  = booking (book (mkEnv 2%N 5) body st).1.
Proof.
  apply (newest_booking_first (mkEnv 2%N 5)
           (BookBody.mk (JString "Bob") (JString "777") (JString "102")
              (JNumber 1))
           (book (mkEnv 1%N 0)
              (BookBody.mk (JString "Ann") (JString "555") (JString "101")
                 (JNumber 2)) seeded).2).
  - reflexivity.
  - intros b Hb. vm_compute in Hb.
    apply list_elem_of_singleton in Hb. subst b. reflexivity.
Defined.
